(** * Account flows of the PocketBase starter frontend

    A shallow embedding of the client-side logic of the authentication
    screens (login with one-time code, e-mail verification, password reset,
    e-mail change confirmation) and the properties their specification
    states about them.

    Conventions.
    - JavaScript values are the inductive [JS.value]; a JavaScript number is
      an IEEE 754 binary64, here Rocq's primitive [float].
    - Wall-clock readings ([Date.now()]) and the integers derived from them
      are integral and far below 2^53, where the double operations the code
      applies to them (subtraction, division by 1000 followed by
      [Math.floor], comparison) are exact; they are modelled in [Z].
    - A string is a sequence of 8-bit code units.
    - A statement that can throw evaluates to a [JS.completion]; [try/catch]
      is [JS.try_catch].
    - An event handler is a program of type [React.Async]: state updates,
      awaited backend calls, reads of the clock and of [localStorage]. *)

From Stdlib Require Import ZArith List String Ascii Bool Lia Floats.
From stdpp Require Import gmap strings.
Import ListNotations.

Set Warnings "-register-all".

Local Open Scope string_scope.
Local Open Scope Z_scope.

(** ** JavaScript values and the operations the screens apply to them *)

Module JS.

(** The error payload the backend attaches to one form field. *)
Record FieldError := { fe_code : string; fe_message : string }.

(** [ClientResponseError] of the PocketBase SDK: [status], [message] and the
    per-field [response.data]. *)
Record ClientResponseError := {
  cre_status : Z;
  cre_message : string;
  cre_data : list (string * FieldError)
}.

(** What a [throw] carries. *)
Inductive Exception :=
| TypeError
| SyntaxError
| InvalidCharacterError
| ClientResponse (e : ClientResponseError)
| GenericError (message : string).

Inductive completion (A : Type) :=
| Normal (a : A)
| Throw (e : Exception).
Arguments Normal {A} a.
Arguments Throw {A} e.

Inductive value :=
| VUndefined
| VNull
| VBool (b : bool)
| VNum (x : float)
| VStr (s : string)
| VArr (items : list value)
| VObj (props : list (string * value)).

(** The Number value of an integer (round to nearest, ties to even). *)
Definition of_int (z : Z) : float :=
  SF2Prim (binary_normalize prec emax z 0 false).

(** ToBoolean. *)
Definition truthy (v : value) : bool :=
  match v with
  | VUndefined | VNull => false
  | VBool b => b
  | VNum x => negb (PrimFloat.eqb x 0 || PrimFloat.is_nan x)
  | VStr s => negb (String.eqb s "")
  | VArr _ | VObj _ => true
  end.

(** [v === s] for a string literal [s]. *)
Definition strict_eq_str (v : value) (s : string) : bool :=
  match v with
  | VStr t => String.eqb t s
  | _ => false
  end.

(** An object built by [JSON.parse] keeps, for a repeated key, the last
    value. *)
Fixpoint own_prop (props : list (string * value)) (k : string) : option value :=
  match props with
  | [] => None
  | (k', v) :: rest =>
      match own_prop rest k with
      | Some w => Some w
      | None => if String.eqb k' k then Some v else None
      end
  end.

(** [v.k] for a key [k] that no prototype defines and that is not an index
    or ["length"]: the keys the screens read are ["type"], ["email"],
    ["newEmail"] and ["exp"]. *)
Definition get_prop (v : value) (k : string) : completion value :=
  match v with
  | VUndefined | VNull => Throw TypeError
  | VObj props =>
      match own_prop props k with
      | Some w => Normal w
      | None => Normal VUndefined
      end
  | _ => Normal VUndefined
  end.

(** What the host provides: [atob], [JSON.parse], and the conversions
    StringToNumber and ToNumber(ToPrimitive(o)) of the language. *)
Class Platform := {
  atob : string -> completion string;
  JSON_parse : string -> completion value;
  StringToNumber : string -> float;
  ObjectToNumber : value -> completion float
}.

(** ToNumber. *)
Definition ToNumber `{Platform} (v : value) : completion float :=
  match v with
  | VUndefined => Normal nan
  | VNull => Normal 0%float
  | VBool b => Normal (if b then 1%float else 0%float)
  | VNum x => Normal x
  | VStr s => Normal (StringToNumber s)
  | VArr _ | VObj _ => ObjectToNumber v
  end.

(** [v < n] for a number [n]. *)
Definition lt_number `{Platform} (v : value) (n : float) : completion bool :=
  match ToNumber v with
  | Normal x => Normal (PrimFloat.ltb x n)
  | Throw e => Throw e
  end.

(** [s.split(".")]. *)
Fixpoint split_dot (s : string) : list string :=
  match s with
  | EmptyString => [EmptyString]
  | String c rest =>
      if Ascii.eqb c "."%char then EmptyString :: split_dot rest
      else
        match split_dot rest with
        | [] => [String c EmptyString]
        | seg :: segs => String c seg :: segs
        end
  end.

(** The number of dots in [s]. *)
Fixpoint count_dots (s : string) : nat :=
  match s with
  | EmptyString => O
  | String c rest =>
      if Ascii.eqb c "."%char then S (count_dots rest) else count_dots rest
  end.

(** [l[i]]: [undefined] out of range. *)
Definition index (l : list string) (i : nat) : option string := nth_error l i.

(** [hay.includes(needle)]. *)
Fixpoint includes (hay needle : string) : bool :=
  String.prefix needle hay ||
  match hay with
  | EmptyString => false
  | String _ rest => includes rest needle
  end.

(** What a piece of code does to the outside. *)
Inductive Effect :=
| ConsoleError (label : string)
| ClockRead
| StorageGet (key : string)
| StorageSet (key val : string)
| Network (call : string)
| Navigate (path : string).

Definition is_io (e : Effect) : bool :=
  match e with
  | StorageGet _ | StorageSet _ _ | Network _ => true
  | _ => false
  end.

(** Synchronous code: a completion and the effects performed on the way. *)
Definition Eff (A : Type) : Type := completion A * list Effect.

Definition ret {A} (a : A) : Eff A := (Normal a, []).
Definition throw {A} (e : Exception) : Eff A := (Throw e, []).
Definition lift {A} (c : completion A) : Eff A := (c, []).
Definition emit (e : Effect) : Eff unit := (Normal tt, [e]).

Definition bind {A B} (m : Eff A) (f : A -> Eff B) : Eff B :=
  match m with
  | (Normal a, t) => let (r, t') := f a in (r, (t ++ t')%list)
  | (Throw e, t) => (Throw e, t)
  end.

Definition try_catch {A} (body : Eff A) (handler : Exception -> Eff A) : Eff A :=
  match body with
  | (Throw e, t) => let (r, t') := handler e in (r, (t ++ t')%list)
  | done => done
  end.

(** [a || b] on conditions: [b] is evaluated only when [a] is false. *)
Definition orelse (a b : Eff bool) : Eff bool :=
  bind a (fun x => if x then ret true else b).

End JS.

Declare Scope eff_scope.
Delimit Scope eff_scope with eff.
Notation "'let*' x ':=' m 'in' k" := (JS.bind m (fun x => k))
  (at level 10, x name, m at level 100, k at level 200) : eff_scope.
Infix "|||" := JS.orelse (at level 50, left associativity) : eff_scope.

(** ** Backend calls and event handlers *)

Module React.
Import JS.

(** [requestOTP] resolves to an object holding the challenge id. *)
Record OTPResponse := { res_otpId : string }.

(** [authRefresh] resolves to the auth data; the pages read
    [record.verified]. *)
Record AuthData := { record_verified : bool }.

(** The entry points of [pb.collection("users")] the screens call, indexed
    by what the promise resolves to. *)
Inductive Call : Type -> Type :=
| authWithPassword (email password : string) : Call AuthData
| requestOTP (email : string) : Call OTPResponse
| authWithOTP (otpId code : string) : Call AuthData
| requestVerification (email : string) : Call unit
| confirmVerification (token : string) : Call unit
| requestPasswordReset (email : string) : Call unit
| confirmPasswordReset (token password passwordConfirm : string) : Call unit
| confirmEmailChange (token password : string) : Call unit
| authRefresh : Call AuthData.

(** A settled promise. *)
Inductive Settled (R : Type) :=
| Fulfilled (r : R)
| Rejected (e : Exception).
Arguments Fulfilled {R} r.
Arguments Rejected {R} e.

(** What a handler does that is seen from outside the component. *)
Inductive Event :=
| Request {R : Type} (c : Call R)
| Sync (e : Effect)
| FormReset.

Definition is_request (e : Event) : bool :=
  match e with
  | Request _ => true
  | _ => false
  end.

Section Handlers.
Context {St : Type}.

(** The body of an event handler or of an effect of a component whose
    state is [St]. [SetState] is a call of a state setter, [Await] an
    awaited backend call with the rest of the body as continuation. *)
Inductive Async :=
| Done
| SetState (f : St -> St) (k : Async)
| Await {R : Type} (c : Call R) (k : Settled R -> Async)
| Now (k : Z -> Async)
| RunSync {A : Type} (body : Z -> Eff A) (k : completion A -> Async)
| GetItem (key : string) (k : option string -> Async)
| SetItem (key val : string) (k : Async)
| Push (path : string) (k : Async)
| Log (label : string) (k : Async)
| ResetForm (k : Async).

(** [p] and then [q]; with [p] a [try] block whose [catch] is already
    inlined, [q] is the [finally] block or the code after it. *)
Fixpoint seq (p q : Async) : Async :=
  match p with
  | Done => q
  | SetState f k => SetState f (seq k q)
  | Await c k => Await c (fun r => seq (k r) q)
  | Now k => Now (fun t => seq (k t) q)
  | RunSync body k => RunSync body (fun r => seq (k r) q)
  | GetItem key k => GetItem key (fun v => seq (k v) q)
  | SetItem key val k => SetItem key val (seq k q)
  | Push path k => Push path (seq k q)
  | Log label k => Log label (seq k q)
  | ResetForm k => ResetForm (seq k q)
  end.

Definition set (f : St -> St) : Async := SetState f Done.

(** The component's state, [localStorage], the clock and what has been
    observed so far (latest event last). *)
Record World := {
  ui : St;
  localStorage : gmap string string;
  clock : Z;
  events : list Event
}.

Definition with_ui (f : St -> St) (w : World) : World :=
  {| ui := f (ui w); localStorage := localStorage w; clock := clock w;
     events := events w |}.

Definition observe (es : list Event) (w : World) : World :=
  {| ui := ui w; localStorage := localStorage w; clock := clock w;
     events := events w ++ es |}.

Definition store (key val : string) (w : World) : World :=
  {| ui := ui w; localStorage := <[key := val]> (localStorage w);
     clock := clock w; events := events w |}.

(** How the backend settles each call. *)
Definition Backend := forall R : Type, Call R -> Settled R.

(** The handler run to completion against a backend. *)
Fixpoint run (p : Async) (net : Backend) (w : World) : World :=
  match p with
  | Done => w
  | SetState f k => run k net (with_ui f w)
  | Await c k => run (k (net _ c)) net (observe [Request c] w)
  | Now k => run (k (clock w)) net (observe [Sync ClockRead] w)
  | RunSync body k =>
      let (r, t) := body (clock w) in
      run (k r) net (observe (map Sync t) w)
  | GetItem key k =>
      run (k (localStorage w !! key)) net (observe [Sync (StorageGet key)] w)
  | SetItem key val k =>
      run k net (observe [Sync (StorageSet key val)] (store key val w))
  | Push path k => run k net (observe [Sync (Navigate path)] w)
  | Log label k => run k net (observe [Sync (ConsoleError label)] w)
  | ResetForm k => run k net (observe [FormReset] w)
  end.

(** Where a handler stands when it first suspends. *)
Inductive Progress :=
| Finished (w : World)
| Suspended {R : Type} (w : World) (c : Call R) (k : Settled R -> Async).

(** The synchronous prefix of the handler: up to its first [await]. *)
Fixpoint start (p : Async) (w : World) : Progress :=
  match p with
  | Done => Finished w
  | SetState f k => start k (with_ui f w)
  | Await c k => Suspended (observe [Request c] w) c k
  | Now k => start (k (clock w)) (observe [Sync ClockRead] w)
  | RunSync body k =>
      let (r, t) := body (clock w) in
      start (k r) (observe (map Sync t) w)
  | GetItem key k =>
      start (k (localStorage w !! key)) (observe [Sync (StorageGet key)] w)
  | SetItem key val k =>
      start k (observe [Sync (StorageSet key val)] (store key val w))
  | Push path k => start k (observe [Sync (Navigate path)] w)
  | Log label k => start k (observe [Sync (ConsoleError label)] w)
  | ResetForm k => start k (observe [FormReset] w)
  end.

(** The state the component renders while the first call is pending. *)
Definition pending_ui (p : Async) (w : World) : St :=
  match start p w with
  | Finished w' => ui w'
  | Suspended w' _ _ => ui w'
  end.

(** The handler suspends on the call [c] before anything else is
    awaited. *)
Definition awaits {R : Type} (p : Async) (w : World) (c : Call R) : Prop :=
  exists w' k, start p w = Suspended w' c k.

End Handlers.
Arguments Async St : clear implicits.
Arguments World St : clear implicits.
Arguments Progress St : clear implicits.

(** A backend that settles nothing in favour of the caller, for the code
    that makes no call. *)
Definition offline : Backend := fun _ _ => Rejected (GenericError "offline").

(** The component in state [s] at time [now], nothing observed yet. *)
Definition world {St : Type} (s : St) (storage : gmap string string) (now : Z)
    : World St :=
  {| ui := s; localStorage := storage; clock := now; events := [] |}.

(** [!s] for a value of type [string | null]. *)
Definition missing (s : option string) : bool :=
  match s with
  | None => true
  | Some t => String.eqb t ""
  end.

(** [err instanceof ClientResponseError]. *)
Definition instanceof_ClientResponseError (e : Exception) : option ClientResponseError :=
  match e with
  | ClientResponse c => Some c
  | _ => None
  end.

End React.

Declare Scope async_scope.
Delimit Scope async_scope with async.
Infix ">>" := React.seq (at level 61, left associativity) : async_scope.

Local Open Scope async_scope.

(** ** The login form with its one-time-code step (src/unnamed/part_001) *)

Module LoginForm.
Import JS React.

Record ExistingUser := { eu_name : string; eu_email : string }.

(** The [useState] cells of [LoginForm]. *)
Record State := {
  error : option string;
  isLoading : bool;
  existingUser : option ExistingUser;
  showOtpForm : bool;
  otpId : option string;
  userEmail : string;
  isLoadingOtp : bool
}.

Definition initial : State :=
  {| error := None; isLoading := false; existingUser := None;
     showOtpForm := false; otpId := None; userEmail := "";
     isLoadingOtp := false |}.

Definition setError (v : option string) (s : State) : State :=
  {| error := v; isLoading := isLoading s; existingUser := existingUser s;
     showOtpForm := showOtpForm s; otpId := otpId s;
     userEmail := userEmail s; isLoadingOtp := isLoadingOtp s |}.
Definition setIsLoading (v : bool) (s : State) : State :=
  {| error := error s; isLoading := v; existingUser := existingUser s;
     showOtpForm := showOtpForm s; otpId := otpId s;
     userEmail := userEmail s; isLoadingOtp := isLoadingOtp s |}.
Definition setShowOtpForm (v : bool) (s : State) : State :=
  {| error := error s; isLoading := isLoading s; existingUser := existingUser s;
     showOtpForm := v; otpId := otpId s;
     userEmail := userEmail s; isLoadingOtp := isLoadingOtp s |}.
Definition setOtpId (v : option string) (s : State) : State :=
  {| error := error s; isLoading := isLoading s; existingUser := existingUser s;
     showOtpForm := showOtpForm s; otpId := v;
     userEmail := userEmail s; isLoadingOtp := isLoadingOtp s |}.
Definition setUserEmail (v : string) (s : State) : State :=
  {| error := error s; isLoading := isLoading s; existingUser := existingUser s;
     showOtpForm := showOtpForm s; otpId := otpId s;
     userEmail := v; isLoadingOtp := isLoadingOtp s |}.
Definition setIsLoadingOtp (v : bool) (s : State) : State :=
  {| error := error s; isLoading := isLoading s; existingUser := existingUser s;
     showOtpForm := showOtpForm s; otpId := otpId s;
     userEmail := userEmail s; isLoadingOtp := v |}.

(** The values of the two forms. *)
Record LoginFormValues := { email : string; password : string }.
Record OtpFormValues := { otp : string }.

(** Every handler closes over the state of the render it was created in:
    its first argument. *)

Definition onSubmit (s : State) (data : LoginFormValues) : Async State :=
  set (setIsLoading true) >> set (setError None) >>
  Await (authWithPassword (email data) (password data)) (fun r1 =>
    match r1 with
    | Fulfilled _ =>
        set (setUserEmail (email data)) >>
        Await (requestOTP (email data)) (fun r2 =>
          match r2 with
          | Fulfilled result =>
              set (setOtpId (Some (res_otpId result))) >>
              set (setShowOtpForm true)
          | Rejected err =>
              match instanceof_ClientResponseError err with
              | Some _ => set (setError (Some "Invalid username or password"))
              | None => set (setError (Some "An unexpected error occurred. Please try again."))
              end
          end)
    | Rejected err =>
        match instanceof_ClientResponseError err with
        | Some _ => set (setError (Some "Invalid username or password"))
        | None => set (setError (Some "An unexpected error occurred. Please try again."))
        end
    end) >>
  set (setIsLoading false).

Definition onOtpSubmit (s : State) (data : OtpFormValues) : Async State :=
  if missing (otpId s) then
    set (setError (Some "Authentication error. Please try again."))
  else
    set (setIsLoadingOtp true) >> set (setError None) >>
    Await (authWithOTP (default "" (otpId s)) (otp data)) (fun r =>
      match r with
      | Fulfilled _ => Push "/dashboard" Done
      | Rejected err =>
          match instanceof_ClientResponseError err with
          | Some e => set (setError (Some (cre_message e)))
          | None => set (setError (Some "An unexpected error occurred. Please try again."))
          end
      end) >>
    set (setIsLoadingOtp false).

Definition handleResendOtp (s : State) : Async State :=
  if String.eqb (userEmail s) "" then Done
  else
    set (setIsLoadingOtp true) >> set (setError None) >>
    Await (requestOTP (userEmail s)) (fun r =>
      match r with
      | Fulfilled result =>
          set (setOtpId (Some (res_otpId result))) >> set (setError None)
      | Rejected err =>
          match instanceof_ClientResponseError err with
          | Some e => set (setError (Some (cre_message e)))
          | None => set (setError (Some "Failed to resend verification code. Please try again."))
          end
      end) >>
    set (setIsLoadingOtp false).

Definition handleBackToLogin (s : State) : Async State :=
  set (setShowOtpForm false) >> set (setOtpId None) >> set (setError None).

(** What is rendered: the one-time-code form replaces the login form when
    [showOtpForm] holds; its three buttons are disabled while a call is
    pending. *)
Definition otp_form_visible (s : State) : bool := showOtpForm s.
Definition otp_buttons_disabled (s : State) : bool := isLoadingOtp s.
Definition login_button_disabled (s : State) : bool := isLoading s.

End LoginForm.

(** ** Numbers and their decimal text, as [localStorage] keeps them *)

Module Text.

(** StrWhiteSpaceChar, among the 8-bit code units. *)
Definition is_white (c : ascii) : bool :=
  let n := N_of_ascii c in
  (N.leb 9 n && N.leb n 13) || N.eqb n 32 || N.eqb n 160.

Fixpoint trim_start (s : string) : string :=
  match s with
  | String c rest => if is_white c then trim_start rest else s
  | EmptyString => s
  end.

(** The value of [c] as a digit of the given radix, if it is one. *)
Definition digit_value (radix : Z) (c : ascii) : option Z :=
  let n := Z.of_N (N_of_ascii c) in
  let d :=
    if (48 <=? n) && (n <=? 57) then n - 48
    else if (97 <=? n) && (n <=? 122) then n - 87
    else if (65 <=? n) && (n <=? 90) then n - 55
    else radix in
  if d <? radix then Some d else None.

(** The integer the longest prefix of digits denotes; [acc] is [None]
    until a digit has been read. *)
Fixpoint parse_digits (radix : Z) (s : string) (acc : option Z) : option Z :=
  match s with
  | String c rest =>
      match digit_value radix c with
      | Some d =>
          parse_digits radix rest
            (Some (radix * match acc with Some a => a | None => 0 end + d))
      | None => acc
      end
  | EmptyString => acc
  end.

(** [Number.parseInt(s)] without a radix; [None] is [NaN]. *)
Definition parseInt (s : string) : option Z :=
  let s1 := trim_start s in
  let '(sign, s2) :=
    match s1 with
    | String "-" rest => (-1, rest)
    | String "+" rest => (1, rest)
    | _ => (1, s1)
    end in
  let '(radix, s3) :=
    match s2 with
    | String "0" (String "x" rest) => (16, rest)
    | String "0" (String "X" rest) => (16, rest)
    | _ => (10, s2)
    end in
  match parse_digits radix s3 None with
  | Some m => Some (sign * m)
  | None => None
  end.

Definition digit_char (d : Z) : ascii := ascii_of_N (Z.to_N (48 + d)).

(** The decimal digits of [n >= 0] in front of [rest]. *)
Fixpoint digits (fuel : nat) (n : Z) (rest : string) : string :=
  match fuel with
  | O => rest
  | S fuel' =>
      let rest' := String (digit_char (n mod 10)) rest in
      if n <? 10 then rest' else digits fuel' (n / 10) rest'
  end.

(** [z.toString()] for an integer below 10^21 in magnitude. *)
Definition toString (z : Z) : string :=
  if z <? 0 then String "-" (digits (S (Z.to_nat (Z.log2 (- z)))) (- z) "")
  else digits (S (Z.to_nat (Z.log2 z))) z "".

(** The shape of the text of a natural number: a digit, then nothing or
    another digit. *)
Definition decimal_shape (s : string) : Prop :=
  exists d tail, 0 <= d < 10 /\ s = String (digit_char d) tail /\
    (tail = EmptyString \/
     exists d' tail', 0 <= d' < 10 /\ tail = String (digit_char d') tail').

End Text.

(** ** The e-mail verification screen (src/app/verify-email/page.tsx) *)

Module VerifyEmailPage.
Import JS React.

(** Cooldown time in seconds. *)
Definition RESEND_COOLDOWN : Z := 30.

Definition storage_key : string := "lastVerificationEmailSent".

(** The user the auth context provides. *)
Record User := { user_email : string; user_verified : bool }.

Record StatusMessage := { success : bool; text : string }.

Record State := {
  isResending : bool;
  isRefreshing : bool;
  resendStatus : option StatusMessage;
  refreshStatus : option StatusMessage;
  countdown : Z;
  initialEmailSent : bool
}.

Definition initial : State :=
  {| isResending := false; isRefreshing := false; resendStatus := None;
     refreshStatus := None; countdown := 0; initialEmailSent := false |}.

Definition setIsResending (v : bool) (s : State) : State :=
  {| isResending := v; isRefreshing := isRefreshing s;
     resendStatus := resendStatus s; refreshStatus := refreshStatus s;
     countdown := countdown s; initialEmailSent := initialEmailSent s |}.
Definition setIsRefreshing (v : bool) (s : State) : State :=
  {| isResending := isResending s; isRefreshing := v;
     resendStatus := resendStatus s; refreshStatus := refreshStatus s;
     countdown := countdown s; initialEmailSent := initialEmailSent s |}.
Definition setResendStatus (v : option StatusMessage) (s : State) : State :=
  {| isResending := isResending s; isRefreshing := isRefreshing s;
     resendStatus := v; refreshStatus := refreshStatus s;
     countdown := countdown s; initialEmailSent := initialEmailSent s |}.
Definition setRefreshStatus (v : option StatusMessage) (s : State) : State :=
  {| isResending := isResending s; isRefreshing := isRefreshing s;
     resendStatus := resendStatus s; refreshStatus := v;
     countdown := countdown s; initialEmailSent := initialEmailSent s |}.
Definition setCountdown (f : Z -> Z) (s : State) : State :=
  {| isResending := isResending s; isRefreshing := isRefreshing s;
     resendStatus := resendStatus s; refreshStatus := refreshStatus s;
     countdown := f (countdown s); initialEmailSent := initialEmailSent s |}.
Definition setInitialEmailSent (v : bool) (s : State) : State :=
  {| isResending := isResending s; isRefreshing := isRefreshing s;
     resendStatus := resendStatus s; refreshStatus := refreshStatus s;
     countdown := countdown s; initialEmailSent := v |}.

(** [user] as a condition: some user is logged in. *)
Definition logged_in (user : option User) : bool :=
  match user with
  | Some _ => true
  | None => false
  end.

(** [resendVerification] of the auth context: one backend call for the
    logged-in user, an error without a call when there is none. *)
Definition resendVerification (user : option User)
    (k : Settled unit -> Async State) : Async State :=
  match user with
  | Some u => Await (requestVerification (user_email u)) k
  | None => k (Rejected (GenericError "No user logged in"))
  end.

(** The effect run on mount: the countdown is derived from the persisted
    time of the last send and the clock. The stored text and the clock are
    integers here; JavaScript computes the same difference in doubles, which
    are exact up to 2^53. *)
Definition init_countdown : Async State :=
  GetItem storage_key (fun lastSentTime =>
    if missing lastSentTime then set (setInitialEmailSent false)
    else
      set (setInitialEmailSent true) >>
      Now (fun now =>
        match Text.parseInt (default "" lastSentTime) with
        | Some sent =>
            let elapsedSeconds := (now - sent) / 1000 in
            let remainingSeconds := RESEND_COOLDOWN - elapsedSeconds in
            if remainingSeconds >? 0
            then set (setCountdown (fun _ => remainingSeconds))
            else Done
        | None => Done
        end)).

(** One firing of the interval timer, which runs only while the countdown
    is positive. *)
Definition tick (s : State) : State :=
  if countdown s <=? 0 then s
  else setCountdown (fun prevCountdown =>
         if prevCountdown <=? 1 then 0 else prevCountdown - 1) s.

(** The effect that sends the first e-mail when none has been recorded. *)
Definition sendInitialVerificationEmail (s : State) (user : option User)
    (isLoading : bool) : Async State :=
  if negb (initialEmailSent s) && logged_in user && negb isLoading then
    resendVerification user (fun r =>
      match r with
      | Fulfilled _ =>
          set (setInitialEmailSent true) >>
          Now (fun now => SetItem storage_key (Text.toString now) Done)
      | Rejected _ => Log "Failed to send initial verification email:" Done
      end)
  else Done.

Definition handleResendVerification (s : State) (user : option User) : Async State :=
  set (setIsResending true) >> set (setResendStatus None) >>
  set (setRefreshStatus None) >>
  resendVerification user (fun r =>
    match r with
    | Fulfilled _ =>
        set (setResendStatus (Some
          {| success := true;
             text := "Verification email sent successfully. Please check your inbox." |})) >>
        Now (fun now => SetItem storage_key (Text.toString now) Done) >>
        set (setInitialEmailSent true) >>
        set (setCountdown (fun _ => RESEND_COOLDOWN))
    | Rejected _ =>
        set (setResendStatus (Some
          {| success := false;
             text := "Failed to send verification email. Please try again later." |}))
    end) >>
  set (setIsResending false).


(** The throttle seen through the screen: the seconds left on display and
    whether the throttle lets a resend through. *)
Definition remainingSeconds (s : State) : Z := countdown s.
Definition canSend (s : State) : bool := negb (countdown s >? 0).

(** The effect of l.26-39 alone, run at [now] over a given [localStorage]
    on the state of the first render. The other effects of the first commit
    are composed with it in [VerifyEmailVisit.opened]. *)
Definition mount (storage : gmap string string) (now : Z) : World State :=
  run init_countdown offline (world initial storage now).

End VerifyEmailPage.

(** ** The password reset screen (src/app/reset-password/page.tsx) *)

Module ResetPasswordPage.
Import JS React.

Inductive Status := idle | loading | success | error.

Definition Status_eqb (a b : Status) : bool :=
  match a, b with
  | idle, idle | loading, loading | success, success | error, error => true
  | _, _ => false
  end.

Record State := {
  status : Status;
  message : string;
  isSubmitting : bool
}.

Definition initial : State :=
  {| status := idle; message := ""; isSubmitting := false |}.

Definition setStatus (v : Status) (s : State) : State :=
  {| status := v; message := message s; isSubmitting := isSubmitting s |}.
Definition setMessage (v : string) (s : State) : State :=
  {| status := status s; message := v; isSubmitting := isSubmitting s |}.
Definition setIsSubmitting (v : bool) (s : State) : State :=
  {| status := status s; message := message s; isSubmitting := v |}.

Record ResetPasswordFormValues := {
  password : string;
  passwordConfirm : string
}.

(** The effect on the token of the link ([searchParams.get("token")]). *)
Definition token_effect (token : option string) : Async State :=
  if missing token then
    set (setStatus error) >>
    set (setMessage "Reset token is missing. Please check your email link.")
  else Done.

Definition onSubmit (token : option string) (data : ResetPasswordFormValues)
    : Async State :=
  if missing token then
    set (setStatus error) >>
    set (setMessage "Reset token is missing. Please check your email link.")
  else
    set (setIsSubmitting true) >>
    Await (confirmPasswordReset (default "" token) (password data)
             (passwordConfirm data)) (fun r =>
      match r with
      | Fulfilled _ =>
          set (setStatus success) >>
          set (setMessage "Your password has been reset successfully!") >>
          ResetForm Done
      | Rejected err =>
          set (setStatus error) >>
          match instanceof_ClientResponseError err with
          | Some e => set (setMessage (cre_message e))
          | None => set (setMessage "An unexpected error occurred. Please try again.")
          end
      end) >>
    set (setIsSubmitting false).

(** What is rendered: the alert with the message, the form unless the
    reset succeeded, and the state of the submit button. *)
Definition alert_visible (s : State) : bool := Status_eqb (status s) error.
Definition form_visible (s : State) : bool := negb (Status_eqb (status s) success).
Definition submit_disabled (s : State) (token : option string) : bool :=
  isSubmitting s || Status_eqb (status s) error || missing token.

(** The handler run from a state of the component, keeping the state it
    ends in. *)
Definition after (p : Async State) (net : Backend) (s : State) : State :=
  ui (run p net (world s ∅ 0)).

(** What can happen on the screen: the token effect runs, or the user
    submits the form, which a disabled button or a hidden form prevents. *)
Inductive step (token : option string) : State -> State -> Prop :=
| step_effect s net :
    step token s (after (token_effect token) net s)
| step_submit s net data :
    form_visible s = true ->
    submit_disabled s token = false ->
    step token s (after (onSubmit token data) net s).

Inductive steps (token : option string) : State -> State -> Prop :=
| steps_refl s : steps token s s
| steps_cons s1 s2 s3 : step token s1 s2 -> steps token s2 s3 -> steps token s1 s3.

End ResetPasswordPage.

(** ** The e-mail change confirmation screen
       (src/app/confirm-email-change/page.tsx) *)

Module ConfirmEmailChangePage.
Import JS React.

Inductive Status := loading | password | success | error.
Inductive ErrorType := invalid | expired | password_error | other.

Record State := {
  status : Status;
  errorType : option ErrorType;
  message : string;
  isSubmitting : bool;
  tokenData : option value;
  passwordError : option string
}.

Definition initial : State :=
  {| status := loading; errorType := None; message := "";
     isSubmitting := false; tokenData := None; passwordError := None |}.

Definition setStatus (v : Status) (s : State) : State :=
  {| status := v; errorType := errorType s; message := message s;
     isSubmitting := isSubmitting s; tokenData := tokenData s;
     passwordError := passwordError s |}.
Definition setErrorType (v : option ErrorType) (s : State) : State :=
  {| status := status s; errorType := v; message := message s;
     isSubmitting := isSubmitting s; tokenData := tokenData s;
     passwordError := passwordError s |}.
Definition setMessage (v : string) (s : State) : State :=
  {| status := status s; errorType := errorType s; message := v;
     isSubmitting := isSubmitting s; tokenData := tokenData s;
     passwordError := passwordError s |}.
Definition setIsSubmitting (v : bool) (s : State) : State :=
  {| status := status s; errorType := errorType s; message := message s;
     isSubmitting := v; tokenData := tokenData s;
     passwordError := passwordError s |}.
Definition setTokenData (v : option value) (s : State) : State :=
  {| status := status s; errorType := errorType s; message := message s;
     isSubmitting := isSubmitting s; tokenData := v;
     passwordError := passwordError s |}.
Definition setPasswordError (v : option string) (s : State) : State :=
  {| status := status s; errorType := errorType s; message := message s;
     isSubmitting := isSubmitting s; tokenData := tokenData s;
     passwordError := v |}.

(** The result of [validateToken]: [{ valid; data?; error? }]. *)
Record Validation := {
  valid : bool;
  data : option value;
  failure : option string
}.

Definition invalid_format : Validation :=
  {| valid := false; data := None; failure := Some "Invalid token format" |}.
Definition invalid_structure : Validation :=
  {| valid := false; data := None; failure := Some "Invalid token structure" |}.
Definition token_expired (payload : value) : Validation :=
  {| valid := false; data := Some payload; failure := Some "Token expired" |}.
Definition token_valid (payload : value) : Validation :=
  {| valid := true; data := Some payload; failure := None |}.
Definition validation_failed : Validation :=
  {| valid := false; data := None; failure := Some "Token validation failed" |}.

Section Inspector.
Context `{Platform}.

(** [!payload.k]. *)
Definition lacks (payload : value) (k : string) : Eff bool :=
  (let* v := lift (get_prop payload k) in ret (negb (truthy v)))%eff.

(** [payload.type !== "emailChange"]. *)
Definition type_differs (payload : value) : Eff bool :=
  (let* v := lift (get_prop payload "type") in
   ret (negb (strict_eq_str v "emailChange")))%eff.

(** The body of the [try] block; [clock] is what [Date.now()] returns. *)
Definition validateToken_try (token : string) (clock : Z) : Eff Validation :=
  (if negb (Nat.eqb (List.length (split_dot token)) 3) then ret invalid_format
   else
     let* encoded := ret (default "undefined" (index (split_dot token) 1)) in
     let* decoded := lift (atob encoded) in
     let* payload := lift (JSON_parse decoded) in
     let* bad := lacks payload "type" ||| type_differs payload
                 ||| lacks payload "email" ||| lacks payload "newEmail"
                 ||| lacks payload "exp" in
     if bad then ret invalid_structure
     else
       let* _ := emit ClockRead in
       let now := clock / 1000 in
       let* exp := lift (get_prop payload "exp") in
       let* past := lift (lt_number exp (of_int now)) in
       if past then ret (token_expired payload)
       else ret (token_valid payload))%eff.

Definition validateToken (token : string) (clock : Z) : Eff Validation :=
  try_catch (validateToken_try token clock)
    (fun e =>
       (let* _ := emit (ConsoleError "Token validation error:") in
        ret validation_failed)%eff).

(** The effect that inspects the token of the link when the page opens. *)
Definition checkTokenValidity (token : option string) : Async State :=
  if missing token then
    set (setStatus error) >> set (setErrorType (Some invalid)) >>
    set (setMessage "Email change token is missing. Please check your email link.")
  else
    RunSync (validateToken (default "" token)) (fun r =>
      match r with
      | Normal validation =>
          if negb (valid validation) then
            set (setStatus error) >>
            match failure validation, data validation with
            | Some reason, Some payload =>
                if String.eqb reason "Token expired" && truthy payload then
                  set (setErrorType (Some expired)) >>
                  set (setTokenData (Some payload)) >>
                  set (setMessage "Your email change link has expired. Please request a new email change.")
                else
                  set (setErrorType (Some invalid)) >>
                  set (setMessage "Invalid email change link. Please request a new email change.")
            | _, _ =>
                set (setErrorType (Some invalid)) >>
                set (setMessage "Invalid email change link. Please request a new email change.")
            end
          else
            set (setTokenData (data validation)) >>
            set (setStatus password)
      | Throw _ => Done
      end).

(** The page opened at [clock] on a link carrying [token]. *)
Definition open_page (token : option string) (clock : Z) : World State :=
  run (checkTokenValidity token) offline (world initial ∅ clock).

(** The middle segment of [token] decodes to the JSON value [payload]. *)
Definition decodes (token : string) (payload : value) : Prop :=
  List.length (split_dot token) = 3%nat /\
  exists encoded decoded,
    index (split_dot token) 1 = Some encoded /\
    atob encoded = Normal decoded /\
    JSON_parse decoded = Normal payload.

(** [token] has three segments and the middle one is not encoded JSON:
    [atob] or [JSON.parse] throws on it. *)
Definition undecodable (token : string) : Prop :=
  List.length (split_dot token) = 3%nat /\
  exists encoded,
    index (split_dot token) 1 = Some encoded /\
    ((exists e, atob encoded = Throw e) \/
     (exists decoded e, atob encoded = Normal decoded /\
                        JSON_parse decoded = Throw e)).

End Inspector.

(** [payload.k], [undefined] where the access throws. *)
Definition field (payload : value) (k : string) : value :=
  match get_prop payload k with
  | Normal v => v
  | Throw _ => VUndefined
  end.

(** The negation of the condition under which [validateToken] reports
    "Invalid token structure". *)
Definition has_structure (payload : value) : bool :=
  truthy (field payload "type") &&
  strict_eq_str (field payload "type") "emailChange" &&
  truthy (field payload "email") &&
  truthy (field payload "newEmail") &&
  truthy (field payload "exp").

(** The three screens the inspection of the link can end on: the link
    rejected as invalid, rejected as expired with what it asked for, and
    the password form. *)
Definition rejected_link : State :=
  {| status := error; errorType := Some invalid;
     message := "Invalid email change link. Please request a new email change.";
     isSubmitting := false; tokenData := None; passwordError := None |}.
Definition expired_link (payload : value) : State :=
  {| status := error; errorType := Some expired;
     message := "Your email change link has expired. Please request a new email change.";
     isSubmitting := false; tokenData := Some payload; passwordError := None |}.
Definition password_prompt (payload : value) : State :=
  {| status := password; errorType := None; message := "";
     isSubmitting := false; tokenData := Some payload; passwordError := None |}.

(** [null] and [undefined]: the values whose properties cannot be read. *)
Definition nullish (payload : value) : bool :=
  match payload with
  | VUndefined | VNull => true
  | _ => false
  end.

(** The verdicts [validateToken] has. *)
Inductive typed_verdict : Validation -> Prop :=
| verdict_format : typed_verdict invalid_format
| verdict_structure : typed_verdict invalid_structure
| verdict_expired payload : typed_verdict (token_expired payload)
| verdict_valid payload : typed_verdict (token_valid payload)
| verdict_failed : typed_verdict validation_failed.

Record PasswordFormValues := { password_value : string }.

(** [error.response?.data?.password?.message], as a condition. *)
Definition password_field_message (e : ClientResponseError) : bool :=
  match List.find (fun kv => String.eqb (fst kv) "password") (cre_data e) with
  | Some (_, fe) => negb (String.eqb (fe_message fe) "")
  | None => false
  end.

(** The test of the [catch] block for a password-related error. *)
Definition is_password_error (err : Exception) : bool :=
  match err with
  | ClientResponse e =>
      (cre_status e =? 400) &&
      (includes (cre_message e) "password" ||
       includes (cre_message e) "Password" ||
       password_field_message e)
  | _ => false
  end.

Definition onSubmit (token : option string) (data : PasswordFormValues)
    : Async State :=
  if missing token then
    set (setStatus error) >> set (setErrorType (Some invalid)) >>
    set (setMessage "Email change token is missing. Please check your email link.")
  else
    set (setIsSubmitting true) >> set (setPasswordError None) >>
    Await (confirmEmailChange (default "" token) (password_value data)) (fun r =>
      match r with
      | Fulfilled _ =>
          set (setStatus success) >>
          set (setMessage "Your email has been successfully changed!")
      | Rejected err =>
          Log "Email change confirmation error:" Done >>
          if is_password_error err then
            set (setPasswordError (Some "Incorrect password. Please try again."))
          else
            set (setStatus error) >> set (setErrorType (Some other)) >>
            set (setMessage "Failed to change your email. Please try again or contact support.")
      end) >>
    set (setIsSubmitting false).

(** What is rendered: each status shows its own block; the password form
    belongs to [password], the error block without form to [error]. *)
Definition password_form_visible (s : State) : bool :=
  match status s with password => true | _ => false end.
Definition error_screen_visible (s : State) : bool :=
  match status s with error => true | _ => false end.
Definition password_alert (s : State) : option string :=
  match status s with password => passwordError s | _ => None end.

End ConfirmEmailChangePage.

(** ** A host: base64, JSON and the numeric conversions

    The screens are verified against every [JS.Platform]. This one follows
    the standards ([atob] of the HTML standard, [JSON.parse], StringToNumber
    and ToPrimitive of ECMAScript) and runs the examples. A string escape
    beyond the 8-bit code units is kept as the unit ["?"]. *)

Module Host.
Import JS.

(** *** Decimal and binary literals to doubles *)

(** The double nearest to [m * 10^e], ties to even. *)
Definition decimal_to_float (negative : bool) (m e : Z) : float :=
  let signed (x : float) := if negative then PrimFloat.opp x else x in
  if m =? 0 then signed 0%float
  else if 0 <=? e then
    signed (SF2Prim (binary_normalize prec emax (m * 10 ^ e) 0 false))
  else
    let q := 10 ^ (- e) in
    let k := Z.max 0 (Z.log2 q - Z.log2 m + 64) in
    let n := m * 2 ^ k in
    let sticky := if n mod q =? 0 then 0 else 1 in
    signed (SF2Prim (binary_normalize prec emax (2 * (n / q) + sticky) (- k - 1) false)).

Definition is_digit (c : ascii) : bool :=
  let n := N_of_ascii c in N.leb 48 n && N.leb n 57.

(** The digits at the front of [s]: their value after [acc], how many
    there are, and what follows. *)
Fixpoint scan_digits (s : string) (acc : Z) (count : Z) : Z * Z * string :=
  match s with
  | String c rest =>
      if is_digit c
      then scan_digits rest (10 * acc + (Z.of_N (N_of_ascii c) - 48)) (count + 1)
      else (acc, count, s)
  | EmptyString => (acc, count, s)
  end.

(** An exponent part [e], [e+] or [e-] and digits; absent, it is 0. *)
Definition scan_exponent (s : string) : option (Z * string) :=
  match s with
  | String c rest =>
      if Ascii.eqb c "e" || Ascii.eqb c "E" then
        let '(negative, rest1) :=
          match rest with
          | String "-" r => (true, r)
          | String "+" r => (false, r)
          | _ => (false, rest)
          end in
        let '(v, n, rest2) := scan_digits rest1 0 0 in
        if n =? 0 then None
        else Some (if negative then - v else v, rest2)
      else Some (0, s)
  | EmptyString => Some (0, s)
  end.

(** *** atob *)

Definition is_base64_space (c : ascii) : bool :=
  let n := N_of_ascii c in
  N.eqb n 9 || N.eqb n 10 || N.eqb n 12 || N.eqb n 13 || N.eqb n 32.

Definition base64_value (c : ascii) : option Z :=
  let n := Z.of_N (N_of_ascii c) in
  if (65 <=? n) && (n <=? 90) then Some (n - 65)
  else if (97 <=? n) && (n <=? 122) then Some (n - 71)
  else if (48 <=? n) && (n <=? 57) then Some (n + 4)
  else if n =? 43 then Some 62
  else if n =? 47 then Some 63
  else None.

Definition byte (n : Z) : ascii := ascii_of_N (Z.to_N (n mod 256)).

Fixpoint decode_sextets (l : list Z) : string :=
  match l with
  | a :: b :: c :: d :: rest =>
      let n := ((a * 64 + b) * 64 + c) * 64 + d in
      String (byte (n / 65536)) (String (byte (n / 256)) (String (byte n)
        (decode_sextets rest)))
  | [a; b; c] =>
      let n := ((a * 64 + b) * 64 + c) / 4 in
      String (byte (n / 256)) (String (byte n) EmptyString)
  | [a; b] => String (byte ((a * 64 + b) / 16)) EmptyString
  | _ => EmptyString
  end.

Fixpoint sextets (l : list ascii) : option (list Z) :=
  match l with
  | [] => Some []
  | c :: rest =>
      match base64_value c, sextets rest with
      | Some v, Some vs => Some (v :: vs)
      | _, _ => None
      end
  end.

(** Forgiving base64 decoding. *)
Definition atob (s : string) : completion string :=
  let chars := List.filter (fun c => negb (is_base64_space c)) (list_ascii_of_string s) in
  let chars :=
    if Nat.eqb (List.length chars mod 4) 0 then
      match List.rev chars with
      | "="%char :: "="%char :: front => List.rev front
      | "="%char :: front => List.rev front
      | _ => chars
      end
    else chars in
  if Nat.eqb (List.length chars mod 4) 1 then Throw InvalidCharacterError
  else
    match sextets chars with
    | Some l => Normal (decode_sextets l)
    | None => Throw InvalidCharacterError
    end.

(** *** JSON.parse *)

(** The double quote, code 34. *)
Abbreviation quote := (Ascii false true false false false true false false).


Definition is_json_space (c : ascii) : bool :=
  let n := N_of_ascii c in
  N.eqb n 32 || N.eqb n 9 || N.eqb n 10 || N.eqb n 13.

Fixpoint skip_space (s : string) : string :=
  match s with
  | String c rest => if is_json_space c then skip_space rest else s
  | EmptyString => s
  end.

Definition hex_value (c : ascii) : option Z :=
  let n := Z.of_N (N_of_ascii c) in
  if (48 <=? n) && (n <=? 57) then Some (n - 48)
  else if (97 <=? n) && (n <=? 102) then Some (n - 87)
  else if (65 <=? n) && (n <=? 70) then Some (n - 55)
  else None.

(** The code unit an escape [\uXXXX] denotes, among the 8-bit units the
    strings here are made of; a unit beyond them is kept as ["?"], so this
    host reads such a text differently from JavaScript. *)
Definition code_unit (n : Z) : ascii :=
  if n <? 256 then ascii_of_N (Z.to_N n) else "?"%char.

(** The characters of a string literal after its opening quote. *)
Fixpoint scan_string (s : string) : option (string * string) :=
  match s with
  | EmptyString => None
  | String c rest =>
      if Ascii.eqb c quote then Some (EmptyString, rest)
      else if N.ltb (N_of_ascii c) 32 then None
      else if Ascii.eqb c "\"%char then
        match rest with
        | String e rest1 =>
            let simple (u : ascii) :=
              match scan_string rest1 with
              | Some (t, r) => Some (String u t, r)
              | None => None
              end in
            if Ascii.eqb e "u" then
              match rest1 with
              | String h1 (String h2 (String h3 (String h4 rest2))) =>
                  match hex_value h1, hex_value h2, hex_value h3, hex_value h4 with
                  | Some a, Some b, Some c', Some d =>
                      match scan_string rest2 with
                      | Some (t, r) =>
                          Some (String (code_unit (((a * 16 + b) * 16 + c') * 16 + d)) t, r)
                      | None => None
                      end
                  | _, _, _, _ => None
                  end
              | _ => None
              end
            else if Ascii.eqb e quote then simple quote
            else if Ascii.eqb e "\"%char then simple "\"%char
            else if Ascii.eqb e "/"%char then simple "/"%char
            else if Ascii.eqb e "b" then simple (ascii_of_N 8)
            else if Ascii.eqb e "f" then simple (ascii_of_N 12)
            else if Ascii.eqb e "n" then simple (ascii_of_N 10)
            else if Ascii.eqb e "r" then simple (ascii_of_N 13)
            else if Ascii.eqb e "t" then simple (ascii_of_N 9)
            else None
        | EmptyString => None
        end
      else
        match scan_string rest with
        | Some (t, r) => Some (String c t, r)
        | None => None
        end
  end.

(** A JSON number: [-]? int frac? exp?, no leading zero before a digit. *)
Definition scan_number (s : string) : option (float * string) :=
  let '(negative, s1) :=
    match s with
    | String "-" r => (true, r)
    | _ => (false, s)
    end in
  let '(int_part, int_count, s2) := scan_digits s1 0 0 in
  let leading_zero :=
    match s1 with
    | String "0" _ => 1 <? int_count
    | _ => false
    end in
  if (int_count =? 0) || leading_zero then None
  else
    let with_fraction :=
      match s2 with
      | String "." r =>
          let '(m, frac_count, s3) := scan_digits r int_part 0 in
          if frac_count =? 0 then None else Some (m, frac_count, s3)
      | _ => Some (int_part, 0, s2)
      end in
    match with_fraction with
    | Some (m, frac_count, s3) =>
        match scan_exponent s3 with
        | Some (e, s4) => Some (decimal_to_float negative m (e - frac_count), s4)
        | None => None
        end
    | None => None
    end.

Definition strip_prefix (p s : string) : option string :=
  if String.prefix p s
  then Some (String.substring (String.length p) (String.length s - String.length p) s)
  else None.

(** A JSON text is read with one unit of fuel per nesting level and per
    element; its length is always enough. *)
Fixpoint parse_value (fuel : nat) (s : string) : option (value * string) :=
  match fuel with
  | O => None
  | S fuel' =>
      match skip_space s with
      | String "{" rest =>
          match skip_space rest with
          | String "}" rest1 => Some (VObj [], rest1)
          | _ => parse_members fuel' rest []
          end
      | String "[" rest =>
          match skip_space rest with
          | String "]" rest1 => Some (VArr [], rest1)
          | _ => parse_elements fuel' rest []
          end
      | String quote rest =>
          match scan_string rest with
          | Some (t, rest1) => Some (VStr t, rest1)
          | None => None
          end
      | s1 =>
          match strip_prefix "true" s1, strip_prefix "false" s1, strip_prefix "null" s1 with
          | Some rest, _, _ => Some (VBool true, rest)
          | _, Some rest, _ => Some (VBool false, rest)
          | _, _, Some rest => Some (VNull, rest)
          | _, _, _ =>
              match scan_number s1 with
              | Some (x, rest) => Some (VNum x, rest)
              | None => None
              end
          end
      end
  end

with parse_elements (fuel : nat) (s : string) (acc : list value)
    : option (value * string) :=
  match fuel with
  | O => None
  | S fuel' =>
      match parse_value fuel' s with
      | Some (v, rest) =>
          match skip_space rest with
          | String "," rest1 => parse_elements fuel' rest1 (acc ++ [v])
          | String "]" rest1 => Some (VArr (acc ++ [v]), rest1)
          | _ => None
          end
      | None => None
      end
  end

with parse_members (fuel : nat) (s : string) (acc : list (string * value))
    : option (value * string) :=
  match fuel with
  | O => None
  | S fuel' =>
      match skip_space s with
      | String quote rest =>
          match scan_string rest with
          | Some (k, rest1) =>
              match skip_space rest1 with
              | String ":" rest2 =>
                  match parse_value fuel' rest2 with
                  | Some (v, rest3) =>
                      match skip_space rest3 with
                      | String "," rest4 => parse_members fuel' rest4 (acc ++ [(k, v)])
                      | String "}" rest4 => Some (VObj (acc ++ [(k, v)]), rest4)
                      | _ => None
                      end
                  | None => None
                  end
              | _ => None
              end
          | None => None
          end
      | _ => None
      end
  end.

Definition JSON_parse (s : string) : completion value :=
  match parse_value (S (String.length s)) s with
  | Some (v, rest) =>
      match skip_space rest with
      | EmptyString => Normal v
      | _ => Throw SyntaxError
      end
  | None => Throw SyntaxError
  end.

(** *** StringToNumber *)

Fixpoint trim_end (s : string) : string :=
  match s with
  | String c rest =>
      match trim_end rest with
      | EmptyString => if Text.is_white c then EmptyString else String c EmptyString
      | t => String c t
      end
  | EmptyString => s
  end.

(** StrDecimalLiteral without sign: digits with an optional fraction, or a
    fraction alone, then an optional exponent; or [Infinity]. *)
Definition unsigned_decimal (negative : bool) (s : string) : float :=
  if String.eqb s "Infinity" then
    (if negative then neg_infinity else infinity)
  else
    let '(int_part, int_count, s1) := scan_digits s 0 0 in
    let '(m, frac_count, s2) :=
      match s1 with
      | String "." r => scan_digits r int_part 0
      | _ => (int_part, 0, s1)
      end in
    if int_count + frac_count =? 0 then nan
    else
      match scan_exponent s2 with
      | Some (e, EmptyString) => decimal_to_float negative m (e - frac_count)
      | _ => nan
      end.

(** The digits of a literal in radix 2, 8 or 16. *)
Definition radix_literal (radix : Z) (s : string) : float :=
  match s with
  | EmptyString => nan
  | _ =>
      (fix go (s : string) (acc : Z) : float :=
         match s with
         | EmptyString => of_int acc
         | String c rest =>
             match Text.digit_value radix c with
             | Some d => go rest (radix * acc + d)
             | None => nan
             end
         end) s 0
  end.

Definition StringToNumber (s : string) : float :=
  match trim_end (Text.trim_start s) with
  | EmptyString => 0%float
  | String "+" rest => unsigned_decimal false rest
  | String "-" rest => unsigned_decimal true rest
  | String "0" (String "x" rest) | String "0" (String "X" rest) => radix_literal 16 rest
  | String "0" (String "o" rest) | String "0" (String "O" rest) => radix_literal 8 rest
  | String "0" (String "b" rest) | String "0" (String "B" rest) => radix_literal 2 rest
  | t => unsigned_decimal false t
  end.

(** *** ToNumber of arrays and objects

    A value built by [JSON.parse] inherits [valueOf] and [toString]; an own
    property ["toString"] hides the inherited method and is not callable,
    and the conversion throws. *)

(** Does ToString throw on [v]? *)
Fixpoint ToString_throws (v : value) : bool :=
  match v with
  | VObj props =>
      match own_prop props "toString" with Some _ => true | None => false end
  | VArr items => List.existsb ToString_throws items
  | _ => false
  end.

(** The number a value contributes as the only element of an array: what
    StringToNumber makes of its string. *)
Fixpoint element_number (v : value) : float :=
  match v with
  | VUndefined | VNull => 0%float
  | VBool _ => nan
  | VNum x => if PrimFloat.eqb x 0 then 0%float else x
  | VStr s => StringToNumber s
  | VArr [] => 0%float
  | VArr [w] => element_number w
  | VArr _ => nan
  | VObj _ => nan
  end.

Definition ObjectToNumber (v : value) : completion float :=
  if ToString_throws v then Throw TypeError
  else
    match v with
    | VArr _ => Normal (element_number v)
    | _ => Normal nan
    end.

#[export] Instance host : Platform := {|
  JS.atob := atob;
  JS.JSON_parse := JSON_parse;
  JS.StringToNumber := StringToNumber;
  JS.ObjectToNumber := ObjectToNumber
|}.

End Host.

(** ** Concrete states, backends and tokens *)

Module Examples.
Import JS React.

(** A backend that rejects every call with [e]. *)
Definition rejecting (e : Exception) : Backend := fun _ _ => Rejected e.

(** A backend that accepts every call and issues [id] as challenge. *)
Definition accepting (id : string) : Backend :=
  fun R c =>
    match c in Call R return Settled R with
    | authWithPassword _ _ => Fulfilled {| record_verified := true |}
    | requestOTP _ => Fulfilled {| res_otpId := id |}
    | authWithOTP _ _ => Fulfilled {| record_verified := true |}
    | requestVerification _ => Fulfilled tt
    | confirmVerification _ => Fulfilled tt
    | requestPasswordReset _ => Fulfilled tt
    | confirmPasswordReset _ _ _ => Fulfilled tt
    | confirmEmailChange _ _ => Fulfilled tt
    | authRefresh => Fulfilled {| record_verified := true |}
    end.

(** The login form after a challenge has been issued. *)
Definition challenge_issued : LoginForm.State :=
  {| LoginForm.error := None; LoginForm.isLoading := false;
     LoginForm.existingUser := None; LoginForm.showOtpForm := true;
     LoginForm.otpId := Some "otp_1";
     LoginForm.userEmail := "user@example.com";
     LoginForm.isLoadingOtp := false |}.

(** Responses of the backend: too many requests, a wrong one-time code, a
    wrong password and a bad token on the e-mail change, a bad token on the
    password reset. *)
Definition too_many_requests : Exception :=
  ClientResponse {| cre_status := 429; cre_message := "Too Many Requests.";
                    cre_data := [] |}.
Definition wrong_code : Exception :=
  ClientResponse {| cre_status := 400; cre_message := "Failed to authenticate.";
                    cre_data := [] |}.
Definition incorrect_password : Exception :=
  ClientResponse
    {| cre_status := 400;
       cre_message := "An error occurred while validating the submitted data.";
       cre_data :=
         [("password",
           {| fe_code := "validation_invalid_password";
              fe_message := "Missing or invalid auth record password." |})] |}.
Definition invalid_or_expired_token : Exception :=
  ClientResponse
    {| cre_status := 400;
       cre_message := "An error occurred while validating the submitted data.";
       cre_data :=
         [("token",
           {| fe_code := "validation_invalid_token";
              fe_message := "Invalid or expired token." |})] |}.

(** The e-mail change screen showing the password form. *)
Definition asking_password : ConfirmEmailChangePage.State :=
  ConfirmEmailChangePage.setStatus ConfirmEmailChangePage.password
    ConfirmEmailChangePage.initial.

(** Tokens: header, payload and signature in base64. The payloads are
    [{"type":"emailChange","email":"old@example.com",
      "newEmail":"new@example.com","exp":1700000000}],
    the same without ["newEmail"] and with ["exp":1600000000], and
    [null]. *)
Definition token_1700000000 : string :=
  "eyJhbGciOiJIUzI1NiJ9.eyJ0eXBlIjoiZW1haWxDaGFuZ2UiLCJlbWFpbCI6Im9sZEBleGFtcGxlLmNvbSIsIm5ld0VtYWlsIjoibmV3QGV4YW1wbGUuY29tIiwiZXhwIjoxNzAwMDAwMDAwfQ.c2ln".
Definition payload_1700000000 : value :=
  VObj [("type", VStr "emailChange"); ("email", VStr "old@example.com");
        ("newEmail", VStr "new@example.com"); ("exp", VNum 1700000000)].
Definition token_without_newEmail : string :=
  "eyJhbGciOiJIUzI1NiJ9.eyJ0eXBlIjoiZW1haWxDaGFuZ2UiLCJlbWFpbCI6Im9sZEBleGFtcGxlLmNvbSIsImV4cCI6MTYwMDAwMDAwMH0.c2ln".
Definition payload_without_newEmail : value :=
  VObj [("type", VStr "emailChange"); ("email", VStr "old@example.com");
        ("exp", VNum 1600000000)].
Definition token_null : string := "eyJhbGciOiJIUzI1NiJ9.bnVsbA.c2ln".
Definition token_two_segments : string := "eyJhbGciOiJIUzI1NiJ9.bnVsbA".
Definition token_not_base64 : string := "eyJhbGciOiJIUzI1NiJ9.!.c2ln".

End Examples.

(** ** What a run leaves behind *)

Module Observed.
Import JS React.

(** The backend calls among the events, in order. *)
Definition requests (es : list Event) : list Event := List.filter is_request es.

(** The paths given to [router.push], in order. *)
Definition navigations (es : list Event) : list string :=
  List.flat_map
    (fun e => match e with Sync (Navigate path) => [path] | _ => [] end) es.

(** The reads and writes of [localStorage] among the events. *)
Definition storage_accesses (es : list Event) : list Event :=
  List.filter
    (fun e => match e with
              | Sync (StorageGet _) | Sync (StorageSet _ _) => true
              | _ => false
              end) es.

End Observed.

(** ** The label of the "Continue as" button (src/unnamed/part_001) *)

Module LoginFormView.

(** Helper function to truncate name; the caller passes no [maxLength] and
    gets the default of 10. *)
Definition truncateName (name : string) (maxLength : nat) : string :=
  if (String.length name <=? maxLength)%nat then name
  else String.append (String.substring 0 maxLength name) "...".

Definition default_maxLength : nat := 10.

End LoginFormView.

(** ** Where the guarded pages send the visitor
       (src/app/verify-email/page.tsx, dashboard layout in src/unnamed/part_000) *)

Module Routing.
Import JS React.


(** The redirect effect of the verification page. *)
Definition verify_email_redirect (user : option VerifyEmailPage.User)
    (isLoading : bool) : Async VerifyEmailPage.State :=
  if negb isLoading then
    match user with
    | None => Push "/login" Done
    | Some u =>
        if VerifyEmailPage.user_verified u then Push "/dashboard" Done else Done
    end
  else Done.






End Routing.

(** ** The verification screen as React commits it *)

Module VerifyEmailVisit.
Import JS React VerifyEmailPage.

(** The same world when the clock reads [t]. *)
Definition at_time (t : Z) (w : World State) : World State :=
  {| ui := ui w; localStorage := localStorage w; clock := t;
     events := events w |}.

(** The effects of a commit that depend on the auth context, in source
    order: the redirect (l.58-71) and the automatic send (l.74-88). They
    close over the state [s] the component was rendered with, not over what
    an earlier effect of the same commit has set since. *)
Definition auth_effects (s : State) (user : option User) (isLoading : bool)
    : Async State :=
  Routing.verify_email_redirect user isLoading >>
  sendInitialVerificationEmail s user isLoading.

(** The first commit of the page, rendered with the state [initial]: the
    effect of l.26-39 at [now]; the timer effect, which returns at once
    since the rendered countdown is 0; the redirect; the automatic send,
    whose response, when it sends, has arrived when the clock reads
    [later]. *)
Definition opened (storage : gmap string string) (now later : Z)
    (user : option User) (isLoading : bool) (net : Backend) : World State :=
  run (auth_effects initial user isLoading) net (at_time later (mount storage now)).

(** A full reload: the auth context is still loading at the first commit
    and provides [user] at the next one, which is rendered with what the
    first has set. *)
Definition reloaded (storage : gmap string string) (now later : Z)
    (user : option User) (net : Backend) : World State :=
  let w0 := opened storage now now None true net in
  run (auth_effects (ui w0) user false) net (at_time later w0).

End VerifyEmailVisit.

(** ** What a rejection of the backend says *)

Module Response.
Import JS.

(** [error.response.data[name]]: the error the backend attached to the
    field [name] of the submitted form. *)
Definition field_error (e : ClientResponseError) (name : string)
    : option FieldError :=
  match List.find (fun kv => String.eqb (fst kv) name) (cre_data e) with
  | Some (_, fe) => Some fe
  | None => None
  end.

(** The response blames the field [name]: it carries an error with a
    message for it. *)
Definition blames (e : ClientResponseError) (name : string) : Prop :=
  exists fe, field_error e name = Some fe /\ fe_message fe <> "".

(** The text [word] occurs in the message of the response. *)
Definition mentions (e : ClientResponseError) (word : string) : Prop :=
  exists pre post, cre_message e = pre ++ word ++ post.

End Response.

(** ** The verification confirmation screen
       (src/app/confirm-verification/page.tsx) *)

Module ConfirmVerificationPage.
Import JS React.

Inductive Status := loading | success | error.

Record State := {
  status : Status;
  message : string
}.

Definition initial : State := {| status := loading; message := "" |}.

Definition setStatus (v : Status) (s : State) : State :=
  {| status := v; message := message s |}.
Definition setMessage (v : string) (s : State) : State :=
  {| status := status s; message := v |}.

(** The effect run on the token of the link. *)
Definition verifyEmail (token : option string) : Async State :=
  if missing token then
    set (setStatus error) >>
    set (setMessage "Verification token is missing. Please check your email link.")
  else
    Await (confirmVerification (default "" token)) (fun r =>
      match r with
      | Fulfilled _ =>
          set (setStatus success) >>
          set (setMessage "Your email has been successfully verified! Please login to access your account.")
      | Rejected _ =>
          Log "Verification error:" Done >>
          set (setStatus error) >>
          set (setMessage "Failed to verify your email. The token may be invalid or expired.")
      end).

End ConfirmVerificationPage.

(** ** The forgotten password screen (src/app/forgot-password/page.tsx) *)

Module ForgotPasswordPage.
Import JS React.

Record StatusMessage := { success : bool; text : string }.

Record State := {
  status : option StatusMessage;
  isLoading : bool
}.

Definition initial : State := {| status := None; isLoading := false |}.

Definition setStatus (v : option StatusMessage) (s : State) : State :=
  {| status := v; isLoading := isLoading s |}.
Definition setIsLoading (v : bool) (s : State) : State :=
  {| status := status s; isLoading := v |}.

Record ForgotPasswordFormValues := { email : string }.

Definition onSubmit (data : ForgotPasswordFormValues) : Async State :=
  set (setIsLoading true) >> set (setStatus None) >>
  Await (requestPasswordReset (email data)) (fun r =>
    match r with
    | Fulfilled _ =>
        set (setStatus (Some
          {| success := true;
             text := "Password reset instructions have been sent to your email." |})) >>
        ResetForm Done
    | Rejected err =>
        match instanceof_ClientResponseError err with
        | Some e => set (setStatus (Some {| success := false; text := cre_message e |}))
        | None =>
            set (setStatus (Some
              {| success := false;
                 text := "An unexpected error occurred. Please try again." |}))
        end
    end) >>
  set (setIsLoading false).

(** What is rendered: the form unless the last request succeeded
    ([status?.success]), its button disabled while a request is pending. *)
Definition form_visible (s : State) : bool :=
  negb match status s with
       | Some m => success m
       | None => false
       end.
Definition submit_disabled (s : State) : bool := isLoading s.

End ForgotPasswordPage.

(** ** The auth store kept in [localStorage] (src/lib/pocketbase.ts) *)

Module AuthPersistence.
Import JS.

Definition auth_key : string := "pocketbase_auth".

Section Store.
Context `{Platform}.

(** The auth store of the SDK: its state, [save(token, model)], [isValid],
    [token] and [model], and [JSON.stringify] of the object
    [{ token, model }]. *)
Variable AuthStore : Type.
Variable save : value -> value -> AuthStore -> AuthStore.
Variable isValid : AuthStore -> bool.
Variable token : AuthStore -> value.
Variable model : AuthStore -> value.
Variable stringify : value -> value -> string.

(** [const { token, model } = JSON.parse(storedAuthData)] followed by
    [pb.authStore.save(token, model)]: the body of the [try] block. *)
Definition restore_try (storedAuthData : string) (store : AuthStore)
    : completion AuthStore :=
  match JSON_parse storedAuthData with
  | Normal parsed =>
      match get_prop parsed "token", get_prop parsed "model" with
      | Normal t, Normal m => Normal (save t m store)
      | Throw e, _ => Throw e
      | _, Throw e => Throw e
      end
  | Throw e => Throw e
  end.

(** Load auth state from localStorage if available; a value that cannot be
    used is reported on the console and removed. What [save] of the SDK's
    own store writes to [localStorage] on the way is not part of this
    model: for a usable value the storage is returned as this file's code
    leaves it. *)
Definition restore (storage : gmap string string) (store : AuthStore)
    : gmap string string * AuthStore * list Effect :=
  match storage !! auth_key with
  | Some storedAuthData =>
      if String.eqb storedAuthData "" then (storage, store, [])
      else
        match restore_try storedAuthData store with
        | Normal store' => (storage, store', [])
        | Throw _ =>
            (delete auth_key storage, store,
             [ConsoleError "Failed to restore auth state:"])
        end
  | None => (storage, store, [])
  end.

(** Save auth state to localStorage on change. *)
Definition onChange (storage : gmap string string) (store : AuthStore)
    : gmap string string :=
  if isValid store
  then <[auth_key := stringify (token store) (model store)]> storage
  else delete auth_key storage.

End Store.

End AuthPersistence.

(** ** Further concrete tokens and responses *)

Module MoreExamples.
Import JS React.

(** Tokens whose payload has an [exp] that is no number: the string
    ["never"], and the object [{"toString":1}]. *)
Definition token_exp_never : string :=
  "eyJhbGciOiJIUzI1NiJ9.eyJ0eXBlIjoiZW1haWxDaGFuZ2UiLCJlbWFpbCI6Im9sZEBleGFtcGxlLmNvbSIsIm5ld0VtYWlsIjoibmV3QGV4YW1wbGUuY29tIiwiZXhwIjoibmV2ZXIifQ.c2ln".
Definition payload_exp_never : value :=
  VObj [("type", VStr "emailChange"); ("email", VStr "old@example.com");
        ("newEmail", VStr "new@example.com"); ("exp", VStr "never")].
Definition token_exp_object : string :=
  "eyJhbGciOiJIUzI1NiJ9.eyJ0eXBlIjoiZW1haWxDaGFuZ2UiLCJlbWFpbCI6Im9sZEBleGFtcGxlLmNvbSIsIm5ld0VtYWlsIjoibmV3QGV4YW1wbGUuY29tIiwiZXhwIjp7InRvU3RyaW5nIjoxfX0.c2ln".
Definition payload_exp_object : value :=
  VObj [("type", VStr "emailChange"); ("email", VStr "old@example.com");
        ("newEmail", VStr "new@example.com");
        ("exp", VObj [("toString", VNum 1)])].

(** A response that mentions the password without being a validation
    error. *)
Definition password_attempts_throttled : Exception :=
  ClientResponse {| cre_status := 429;
                    cre_message := "Too many password attempts.";
                    cre_data := [] |}.

(** A backend that accepts the password and refuses to issue a code. *)
Definition refusing_codes : Backend :=
  fun R c =>
    match c in Call R return Settled R with
    | requestOTP _ => Rejected Examples.too_many_requests
    | authWithPassword _ _ => Fulfilled {| record_verified := true |}
    | authWithOTP _ _ => Fulfilled {| record_verified := true |}
    | requestVerification _ => Fulfilled tt
    | confirmVerification _ => Fulfilled tt
    | requestPasswordReset _ => Fulfilled tt
    | confirmPasswordReset _ _ _ => Fulfilled tt
    | confirmEmailChange _ _ => Fulfilled tt
    | authRefresh => Fulfilled {| record_verified := true |}
    end.

(** A rejection of the token of an e-mail change in which the backend,
    having no account to check the password against, attaches an error to
    the password as well. *)
Definition rejected_token_and_password : Exception :=
  ClientResponse
    {| cre_status := 400;
       cre_message := "An error occurred while validating the submitted data.";
       cre_data :=
         [("token",
           {| fe_code := "validation_invalid_token";
              fe_message := "Invalid or expired token." |});
          ("password",
           {| fe_code := "validation_invalid_password";
              fe_message := "Missing or invalid auth record password." |})] |}.

(** A visitor who has not verified the address yet. *)
Definition unverified_user : VerifyEmailPage.User :=
  {| VerifyEmailPage.user_email := "user@example.com";
     VerifyEmailPage.user_verified := false |}.

End MoreExamples.

(** * Properties *)

(** Runs a handler whose shape is known, leaving its data alone. *)
Ltac run_handler :=
  cbn [React.run React.start React.seq React.set React.with_ui React.observe
       React.store React.world React.pending_ui
       React.ui React.localStorage React.clock React.events].

(** ** Decimal text: what [toString] writes, [parseInt] reads back *)

Section TextFacts.
Import Text.

Lemma digit_value_digit_char d :
  0 <= d < 10 -> digit_value 10 (digit_char d) = Some d.
Proof.
  intros Hd.
  assert (Hc : In d [0; 1; 2; 3; 4; 5; 6; 7; 8; 9]) by (simpl; lia).
  simpl in Hc.
  repeat (destruct Hc as [<- | Hc]; [reflexivity |]).
  destruct Hc.
Qed.

Lemma parse_digits_digits fuel : forall n rest,
  0 <= n -> (Z.to_nat (Z.log2 n) < fuel)%nat ->
  parse_digits 10 (digits fuel n rest) None = parse_digits 10 rest (Some n).
Proof.
  induction fuel as [| fuel IH]; intros n rest Hn Hfuel; [lia |].
  simpl digits.
  assert (Hmod : 0 <= n mod 10 < 10) by (apply Z.mod_pos_bound; lia).
  destruct (n <? 10) eqn:Hlt.
  - apply Z.ltb_lt in Hlt.
    simpl. rewrite digit_value_digit_char by exact Hmod.
    rewrite Z.mod_small by lia. reflexivity.
  - apply Z.ltb_ge in Hlt.
    rewrite IH.
    + simpl. rewrite digit_value_digit_char by exact Hmod.
      f_equal. f_equal. rewrite (Z.div_mod n 10) at 3 by lia. reflexivity.
    + apply Z.div_pos; lia.
    + assert (Z.log2 (n / 10) < Z.log2 n).
      { assert (n / 10 <= n / 2) by (apply Z.div_le_compat_l; lia).
        assert (Z.log2 (n / 10) <= Z.log2 (n / 2)) by (apply Z.log2_le_mono; lia).
        rewrite <- Z.div2_div, Z.div2_spec, Z.log2_shiftr in * by lia.
        assert (1 <= Z.log2 n) by (apply Z.log2_le_pow2; lia).
        lia. }
      assert (0 <= Z.log2 (n / 10)) by apply Z.log2_nonneg.
      lia.
Qed.

Lemma small_cases d (P : Z -> Prop) :
  0 <= d < 10 ->
  P 0 -> P 1 -> P 2 -> P 3 -> P 4 -> P 5 -> P 6 -> P 7 -> P 8 -> P 9 -> P d.
Proof.
  intros Hd; intros.
  assert (Hc : In d [0; 1; 2; 3; 4; 5; 6; 7; 8; 9]) by (simpl; lia).
  simpl in Hc.
  repeat (destruct Hc as [<- | Hc]; [assumption |]).
  destruct Hc.
Qed.

Lemma digits_shape fuel : forall n d0 rest,
  0 <= d0 < 10 ->
  (rest = EmptyString \/ exists d' tail', 0 <= d' < 10 /\ rest = String (digit_char d') tail') ->
  decimal_shape (digits fuel n (String (digit_char d0) rest)).
Proof.
  induction fuel as [| fuel IH]; intros n d0 rest Hd0 Hrest.
  - simpl. exists d0, rest. auto.
  - simpl.
    assert (Hmod : 0 <= n mod 10 < 10) by (apply Z.mod_pos_bound; lia).
    destruct (n <? 10).
    + exists (n mod 10), (String (digit_char d0) rest). repeat split; try lia.
      right. exists d0, rest. auto.
    + apply IH; [exact Hmod |]. right. exists d0, rest. auto.
Qed.

Lemma toString_shape z : 0 <= z -> decimal_shape (digits (S (Z.to_nat (Z.log2 z))) z "").
Proof.
  intros Hz. simpl.
  assert (Hmod : 0 <= z mod 10 < 10) by (apply Z.mod_pos_bound; lia).
  destruct (z <? 10).
  - exists (z mod 10), "". auto.
  - apply digits_shape; auto.
Qed.

Lemma parseInt_decimal s :
  decimal_shape s ->
  parseInt s =
    match parse_digits 10 s None with Some m => Some (1 * m) | None => None end /\
  parseInt (String "-" s) =
    match parse_digits 10 s None with Some m => Some (- 1 * m) | None => None end.
Proof.
  intros (d & tail & Hd & -> & [-> | (d' & tail' & Hd' & ->)]).
  - pattern d. apply small_cases; [exact Hd | ..]; split; reflexivity.
  - pattern d. apply small_cases; [exact Hd | ..];
      pattern d'; apply small_cases; try exact Hd'; split; reflexivity.
Qed.

Lemma parseInt_toString z : parseInt (toString z) = Some z.
Proof.
  unfold toString. destruct (z <? 0) eqn:Hneg.
  - apply Z.ltb_lt in Hneg.
    destruct (parseInt_decimal _ (toString_shape (- z) ltac:(lia))) as [_ ->].
    rewrite parse_digits_digits by lia. simpl. f_equal. lia.
  - apply Z.ltb_ge in Hneg.
    destruct (parseInt_decimal _ (toString_shape z Hneg)) as [-> _].
    rewrite parse_digits_digits by lia. simpl. f_equal. lia.
Qed.

End TextFacts.

(** ** The one-time-code step of the login form *)

Section LoginFormFacts.
Import JS React LoginForm.

Lemma missing_some (id : string) : id <> "" -> missing (Some id) = false.
Proof. intros Hid. simpl. now apply String.eqb_neq. Qed.

(** C6. Submitting a code while no challenge id is held ends at once: the
    handler sets the message "Authentication error. Please try again.",
    awaits nothing and sends nothing to the backend. *)
Theorem verify_without_challenge_fails_locally
    (s : State) (data : OtpFormValues) (net : Backend) (w : World State) :
  otpId s = None ->
  let w' := run (onOtpSubmit s data) net w in
  start (onOtpSubmit s data) w = Finished w' /\
  ui w' = setError (Some "Authentication error. Please try again.") (ui w) /\
  events w' = events w.
Proof.
  intros Hid. unfold onOtpSubmit. rewrite Hid. simpl. auto.
Qed.

Lemma verify_without_challenge_witness :
  otpId initial = None /\
  ui (run (onOtpSubmit initial {| otp := "123456" |}) (Examples.accepting "otp_2")
        (world initial ∅ 0))
  = setError (Some "Authentication error. Please try again.") initial.
Proof.
  split; [reflexivity |].
  apply (verify_without_challenge_fails_locally initial {| otp := "123456" |}
           (Examples.accepting "otp_2") (world initial ∅ 0)).
  reflexivity.
Defined.

(** C7. A verification the backend rejects leaves the one-time-code form
    as it was: the same challenge id is held, the form is still shown and
    its buttons are enabled again; the error is shown as the backend's
    message for a [ClientResponseError] and as a fixed message otherwise;
    a further submission sends the new code with the same challenge id. *)
Theorem failed_verify_keeps_challenge
    (s : State) (id : string) (data : OtpFormValues) (net : Backend)
    (w : World State) (err : Exception) :
  ui w = s -> otpId s = Some id -> id <> "" ->
  net _ (authWithOTP id (otp data)) = Rejected err ->
  let w' := run (onOtpSubmit s data) net w in
  otpId (ui w') = Some id /\
  showOtpForm (ui w') = showOtpForm s /\
  userEmail (ui w') = userEmail s /\
  error (ui w') =
    Some (match instanceof_ClientResponseError err with
          | Some e => cre_message e
          | None => "An unexpected error occurred. Please try again."
          end) /\
  otp_buttons_disabled (ui w') = false /\
  events w' = (events w ++ [Request (authWithOTP id (otp data))])%list /\
  forall data', awaits (onOtpSubmit (ui w') data') w' (authWithOTP id (otp data')).
Proof.
  intros Hui Hid Hne Hnet. subst s.
  unfold onOtpSubmit. rewrite Hid, (missing_some id Hne). simpl.
  rewrite Hnet.
  destruct (instanceof_ClientResponseError err) as [e |]; simpl;
    (repeat split; try assumption; try reflexivity;
     intros data'; unfold awaits, onOtpSubmit; simpl;
     rewrite Hid, (missing_some id Hne); simpl; eauto).
Qed.

Lemma failed_verify_witness :
  let s := Examples.challenge_issued in
  let w' := run (onOtpSubmit s {| otp := "000000" |})
              (Examples.rejecting Examples.wrong_code) (world s ∅ 0) in
  otpId (ui w') = Some "otp_1" /\
  showOtpForm (ui w') = true /\
  error (ui w') = Some "Failed to authenticate." /\
  otp_buttons_disabled (ui w') = false.
Proof.
  destruct (failed_verify_keeps_challenge Examples.challenge_issued "otp_1"
              {| otp := "000000" |} (Examples.rejecting Examples.wrong_code)
              (world Examples.challenge_issued ∅ 0) Examples.wrong_code)
    as (H1 & H2 & _ & H4 & H5 & _).
  - reflexivity.
  - reflexivity.
  - discriminate.
  - reflexivity.
  - exact (conj H1 (conj H2 (conj H4 H5))).
Defined.




End LoginFormFacts.

(** ** The resend throttle of the verification screen *)

Section ThrottleFacts.
Import JS React VerifyEmailPage VerifyEmailVisit.

Lemma toString_not_empty z : Text.toString z <> "".
Proof.
  intros Hz. pose proof (parseInt_toString z) as H.
  rewrite Hz in H. discriminate.
Qed.



Lemma mount_countdown (storage : gmap string string) (sent now : Z) :
  storage !! storage_key = Some (Text.toString sent) ->
  let remaining := RESEND_COOLDOWN - (now - sent) / 1000 in
  countdown (ui (mount storage now)) = (if remaining >? 0 then remaining else 0) /\
  initialEmailSent (ui (mount storage now)) = true /\
  isResending (ui (mount storage now)) = false /\
  isRefreshing (ui (mount storage now)) = false.
Proof.
  intros Hget. unfold mount, init_countdown. simpl. rewrite Hget.
  pose proof (toString_not_empty sent) as Hne.
  apply String.eqb_neq in Hne. simpl. rewrite Hne. simpl.
  rewrite parseInt_toString.
  destruct (RESEND_COOLDOWN - (now - sent) / 1000 >? 0); simpl; auto.
Qed.


Lemma auth_effects_keep_throttle
    (s0 : State) (user : option User) (isLoading : bool) (net : Backend)
    (w : World State) :
  let w' := run (auth_effects s0 user isLoading) net w in
  countdown (ui w') = countdown (ui w) /\
  isResending (ui w') = isResending (ui w) /\
  isRefreshing (ui w') = isRefreshing (ui w).
Proof.
  unfold auth_effects, Routing.verify_email_redirect,
    sendInitialVerificationEmail, resendVerification.
  destruct isLoading, user as [u |], (initialEmailSent s0);
    cbn [negb andb logged_in]; run_handler; auto;
    destruct (user_verified u); run_handler; auto;
    destruct (net unit (requestVerification (user_email u))); run_handler; auto.
Qed.

Lemma opened_throttle
    (storage : gmap string string) (now later : Z) (user : option User)
    (isLoading : bool) (net : Backend) :
  countdown (ui (opened storage now later user isLoading net)) =
    countdown (ui (mount storage now)) /\
  isResending (ui (opened storage now later user isLoading net)) =
    isResending (ui (mount storage now)) /\
  isRefreshing (ui (opened storage now later user isLoading net)) =
    isRefreshing (ui (mount storage now)).
Proof.
  exact (auth_effects_keep_throttle initial user isLoading net
           (at_time later (mount storage now))).
Qed.

Lemma reloaded_throttle
    (storage : gmap string string) (now later : Z) (user : option User)
    (net : Backend) :
  countdown (ui (reloaded storage now later user net)) =
    countdown (ui (mount storage now)) /\
  isResending (ui (reloaded storage now later user net)) =
    isResending (ui (mount storage now)) /\
  isRefreshing (ui (reloaded storage now later user net)) =
    isRefreshing (ui (mount storage now)).
Proof.
  unfold reloaded.
  destruct (auth_effects_keep_throttle
              (ui (opened storage now now None true net)) user false net
              (at_time later (opened storage now now None true net)))
    as (Hc & Hr & Hf).
  destruct (opened_throttle storage now now None true net) as (Hc' & Hr' & Hf').
  cbv zeta in Hc, Hr, Hf. rewrite Hc, Hr, Hf. auto.
Qed.




(** The automatic first send (not the resend button) records its time as
    well, but leaves the countdown of the running page alone. *)
Remark initial_send_records_time
    (u : User) (net : Backend) (storage : gmap string string) (T : Z) :
  net _ (requestVerification (user_email u)) = Fulfilled tt ->
  let w := run (sendInitialVerificationEmail initial (Some u) false) net
             (world initial storage T) in
  localStorage w !! storage_key = Some (Text.toString T) /\
  remainingSeconds (ui w) = 0.
Proof.
  intros Hnet. unfold sendInitialVerificationEmail, resendVerification.
  change (negb (initialEmailSent initial) && logged_in (Some u) && negb false)
    with true.
  run_handler. rewrite Hnet. run_handler.
  split; [apply lookup_insert_eq | reflexivity].
Qed.

End ThrottleFacts.
(** ** The password reset screen *)

Section ResetPasswordFacts.
Import JS React ResetPasswordPage.

Lemma reset_failure_state
    (token : option string) (data : ResetPasswordFormValues) (net : Backend)
    (s : State) (err : Exception) :
  missing token = false ->
  net _ (confirmPasswordReset (default "" token) (password data) (passwordConfirm data))
    = Rejected err ->
  after (onSubmit token data) net s =
    {| status := error;
       message := match instanceof_ClientResponseError err with
                  | Some e => cre_message e
                  | None => "An unexpected error occurred. Please try again."
                  end;
       isSubmitting := false |}.
Proof.
  intros Htoken Hnet. unfold after, onSubmit. rewrite Htoken.
  run_handler. rewrite Hnet.
  destruct (instanceof_ClientResponseError err); reflexivity.
Qed.

Lemma error_status_disables_submit (s : State) (token : option string) :
  status s = error -> submit_disabled s token = true.
Proof.
  intros Hs. unfold submit_disabled. rewrite Hs. simpl.
  now rewrite orb_true_r.
Qed.

Lemma step_keeps_error (token : option string) (s s' : State) :
  status s = error -> step token s s' -> status s' = error.
Proof.
  intros Hs Hstep. destruct Hstep as [s net | s net data _ Henabled].
  - unfold after, token_effect. destruct (missing token); [reflexivity | exact Hs].
  - rewrite (error_status_disables_submit s token Hs) in Henabled. discriminate.
Qed.

Lemma steps_keep_error (token : option string) (s s' : State) :
  steps token s s' -> status s = error -> status s' = error.
Proof.
  induction 1 as [s | s1 s2 s3 Hstep _ IH]; intros Hs; [exact Hs |].
  apply IH. exact (step_keeps_error token s1 s2 Hs Hstep).
Qed.

(** C4, as the code has it. When the confirmation of a password reset is
    rejected (the link carried a token), the error is shown and the form
    stays rendered, but its submit button is disabled, as it is whenever
    the status is [error]; nothing that can happen on the screen leaves
    that status, so the form cannot be submitted again. *)
Theorem reset_failure_disables_retry
    (token : option string) (data : ResetPasswordFormValues) (net : Backend)
    (s : State) (err : Exception) :
  missing token = false ->
  net _ (confirmPasswordReset (default "" token) (password data) (passwordConfirm data))
    = Rejected err ->
  let s' := after (onSubmit token data) net s in
  status s' = error /\
  message s' = match instanceof_ClientResponseError err with
               | Some e => cre_message e
               | None => "An unexpected error occurred. Please try again."
               end /\
  alert_visible s' = true /\
  form_visible s' = true /\
  isSubmitting s' = false /\
  submit_disabled s' token = true /\
  forall s'', steps token s' s'' ->
    status s'' = error /\ submit_disabled s'' token = true.
Proof.
  intros Htoken Hnet s'. subst s'.
  rewrite (reset_failure_state token data net s err Htoken Hnet).
  repeat split.
  - eapply steps_keep_error; [eassumption | reflexivity].
  - apply error_status_disables_submit.
    eapply steps_keep_error; [eassumption | reflexivity].
Qed.

Lemma reset_failure_witness :
  let data := {| password := "new-password"; passwordConfirm := "new-password" |} in
  let s' := after (onSubmit (Some "reset-token") data)
              (Examples.rejecting Examples.invalid_or_expired_token) initial in
  status s' = error /\ form_visible s' = true /\
  submit_disabled s' (Some "reset-token") = true.
Proof.
  destruct (reset_failure_disables_retry (Some "reset-token")
              {| password := "new-password"; passwordConfirm := "new-password" |}
              (Examples.rejecting Examples.invalid_or_expired_token) initial
              Examples.invalid_or_expired_token eq_refl eq_refl)
    as (H1 & _ & _ & H4 & _ & H6 & _).
  exact (conj H1 (conj H4 H6)).
Defined.

(** C4, as the specification has it, fails: after a server error on a link
    that carries a token the form is visible but cannot be submitted, and
    every state the screen can still reach is the same. *)
Lemma reset_failure_blocks_resubmission :
  let token := Some "reset-token" in
  let data := {| password := "new-password"; passwordConfirm := "new-password" |} in
  let s' := after (onSubmit token data)
              (Examples.rejecting Examples.invalid_or_expired_token) initial in
  missing token = false /\
  form_visible s' = true /\
  submit_disabled s' token = true /\
  forall s'', step token s' s'' -> s'' = s'.
Proof.
  repeat split.
  intros s'' Hstep. inversion Hstep as [s0 net | s0 net data' _ Henabled]; subst.
  - reflexivity.
  - discriminate Henabled.
Qed.

End ResetPasswordFacts.

(** ** Submitting the password on the e-mail change screen *)

Section EmailChangeSubmitFacts.
Import JS React ConfirmEmailChangePage Response.

Lemma prefix_append (needle hay : string) :
  String.prefix needle hay = true <-> exists post, hay = needle ++ post.
Proof.
  revert hay. induction needle as [| a needle IH]; intros hay.
  - split; [intros _; exists hay; reflexivity | intros _; now destruct hay].
  - destruct hay as [| b hay]; simpl.
    + split; [discriminate | intros (post & H); discriminate H].
    + destruct (ascii_dec a b) as [-> | Hab].
      * rewrite IH. split; intros (post & H); exists post.
        -- now rewrite H.
        -- now injection H.
      * split; [discriminate |].
        intros (post & H). injection H as Hba _. now subst.
Qed.

Lemma includes_occurs (hay needle : string) :
  includes hay needle = true <-> exists pre post, hay = pre ++ needle ++ post.
Proof.
  induction hay as [| c hay IH]; cbn [includes].
  - rewrite orb_false_r, prefix_append. split.
    + intros (post & H). exists "", post. exact H.
    + intros (pre & post & H). destruct pre as [| c' pre]; [| discriminate H].
      exists post. exact H.
  - rewrite orb_true_iff, prefix_append, IH. split.
    + intros [(post & H) | (pre & post & H)].
      * exists "", post. exact H.
      * exists (String c pre), post. simpl. now rewrite H.
    + intros (pre & post & H). destruct pre as [| c' pre]; simpl in H.
      * left. exists post. exact H.
      * right. injection H as _ H. exists pre, post. exact H.
Qed.

Lemma password_field_blamed (e : ClientResponseError) :
  password_field_message e = true <-> blames e "password".
Proof.
  unfold password_field_message, blames, field_error.
  destruct (List.find _ (cre_data e)) as [[k fe] |].
  - rewrite negb_true_iff, String.eqb_neq. split.
    + intros Hne. exists fe. auto.
    + intros (fe' & Hfe & Hne). now injection Hfe as ->.
  - split; [discriminate |]. intros (fe' & Hfe & _). discriminate Hfe.
Qed.

Lemma is_password_error_spec (e : ClientResponseError) :
  is_password_error (ClientResponse e) = true <->
  cre_status e = 400 /\
  (blames e "password" \/ mentions e "password" \/ mentions e "Password").
Proof.
  unfold is_password_error, mentions.
  rewrite andb_true_iff, !orb_true_iff, Z.eqb_eq, !includes_occurs,
    password_field_blamed.
  tauto.
Qed.
(** C5, as the code has it. When the confirmation of an e-mail change is
    rejected while the password form is shown, the response decides what
    follows. A response of status 400 that blames the password field or
    whose message has the text "password" or "Password" in it, as the
    rejection of an incorrect password does, keeps the screen on the
    password form and only sets the password error; this is so whatever the
    response says of the token. Every other rejection moves the screen to
    the error state, which shows no form; among them is the response that
    blames the token and says nothing of the password. *)
Theorem email_change_rejection
    (token : option string) (data : PasswordFormValues) (net : Backend)
    (w : World State) (err : Exception) :
  missing token = false ->
  status (ui w) = password ->
  net _ (confirmEmailChange (default "" token) (password_value data)) = Rejected err ->
  let s' := ui (run (onSubmit token data) net w) in
  (forall e, err = ClientResponse e ->
     cre_status e = 400 ->
     blames e "password" \/ mentions e "password" \/ mentions e "Password" ->
     s' = setIsSubmitting false
            (setPasswordError (Some "Incorrect password. Please try again.") (ui w)) /\
     status s' = password /\
     password_form_visible s' = true /\
     error_screen_visible s' = false /\
     password_alert s' = Some "Incorrect password. Please try again.") /\
  ((forall e, err = ClientResponse e ->
      cre_status e = 400 ->
      ~ (blames e "password" \/ mentions e "password" \/ mentions e "Password")) ->
     status s' = error /\
     errorType s' = Some other /\
     password_form_visible s' = false /\
     error_screen_visible s' = true) /\
  (forall e, err = ClientResponse e ->
     blames e "token" ->
     ~ blames e "password" -> ~ mentions e "password" -> ~ mentions e "Password" ->
     status s' = error /\
     errorType s' = Some other /\
     password_form_visible s' = false /\
     error_screen_visible s' = true).
Proof.
  intros Htoken Hstatus Hnet s'. subst s'.
  unfold onSubmit. rewrite Htoken. run_handler. rewrite Hnet. run_handler.
  split; [| split].
  - intros e -> H400 Hpw.
    rewrite (proj2 (is_password_error_spec e) (conj H400 Hpw)). run_handler.
    unfold password_form_visible, error_screen_visible, password_alert.
    cbn [status setIsSubmitting setPasswordError passwordError].
    rewrite Hstatus. destruct (ui w); repeat split.
  - intros Hnone.
    assert (Hkind : is_password_error err = false).
    { destruct err as [| | | e |]; try reflexivity.
      destruct (is_password_error (ClientResponse e)) eqn:Hkind; [| reflexivity].
      apply is_password_error_spec in Hkind. destruct Hkind as (H400 & Hpw).
      destruct (Hnone e eq_refl H400 Hpw). }
    rewrite Hkind. run_handler. repeat split.
  - intros e -> _ Hfield Hlower Hupper.
    assert (Hkind : is_password_error (ClientResponse e) = false).
    { destruct (is_password_error (ClientResponse e)) eqn:Hkind; [| reflexivity].
      apply is_password_error_spec in Hkind. tauto. }
    rewrite Hkind. run_handler. repeat split.
Qed.

Lemma email_change_rejection_witness :
  let data := {| password_value := "wrongpassword" |} in
  let start := world Examples.asking_password ∅ 0 in
  status (ui (run (onSubmit (Some "token") data)
                (Examples.rejecting Examples.incorrect_password) start)) = password /\
  status (ui (run (onSubmit (Some "token") data)
                (Examples.rejecting Examples.invalid_or_expired_token) start)) = error.
Proof.
  split.
  - destruct (email_change_rejection (Some "token") {| password_value := "wrongpassword" |}
                (Examples.rejecting Examples.incorrect_password)
                (world Examples.asking_password ∅ 0) Examples.incorrect_password
                eq_refl eq_refl eq_refl) as (Hkept & _).
    refine (proj1 (proj2 (Hkept _ eq_refl eq_refl _))).
    left. eexists. split; [reflexivity | discriminate].
  - destruct (email_change_rejection (Some "token") {| password_value := "wrongpassword" |}
                (Examples.rejecting Examples.invalid_or_expired_token)
                (world Examples.asking_password ∅ 0) Examples.invalid_or_expired_token
                eq_refl eq_refl eq_refl) as (_ & _ & Hleft).
    refine (proj1 (Hleft _ eq_refl _ _ _ _)).
    + eexists. split; [reflexivity | discriminate].
    + intros (fe & Hfe & _). discriminate Hfe.
    + intros Hin. apply includes_occurs in Hin. discriminate Hin.
    + intros Hin. apply includes_occurs in Hin. discriminate Hin.
Defined.

(** C5, as the specification has it, fails: a rejection can name the token
    and the password at once. The response below says that the token is
    invalid or expired; since it also carries an error for the password
    field, the screen stays on the password form and reports an incorrect
    password instead of moving to the error state. *)
Lemma rejected_token_keeps_password_form :
  let data := {| password_value := "the-right-password" |} in
  let start := world Examples.asking_password ∅ 0 in
  let s' := ui (run (onSubmit (Some "token") data)
                  (Examples.rejecting MoreExamples.rejected_token_and_password) start) in
  (exists e, MoreExamples.rejected_token_and_password = ClientResponse e /\
             cre_status e = 400 /\ blames e "token") /\
  status s' = password /\
  password_form_visible s' = true /\
  error_screen_visible s' = false /\
  password_alert s' = Some "Incorrect password. Please try again.".
Proof.
  cbv zeta. split; [| repeat split].
  eexists. split; [reflexivity |]. split; [reflexivity |].
  eexists. split; [reflexivity | discriminate].
Qed.

End EmailChangeSubmitFacts.
(** ** Splitting at dots *)

Section SplitFacts.
Import JS.

(** A string has one segment more than it has dots. *)
Lemma split_dot_length (s : string) :
  List.length (split_dot s) = S (count_dots s).
Proof.
  induction s as [| c rest IH]; [reflexivity |].
  simpl. destruct (Ascii.eqb c "."%char).
  - simpl. now rewrite IH.
  - destruct (split_dot rest) as [| seg segs]; [discriminate IH | exact IH].
Qed.

(** Three segments: exactly two dots. *)
Lemma three_segments_two_dots (s : string) :
  List.length (split_dot s) = 3%nat <-> count_dots s = 2%nat.
Proof. rewrite split_dot_length. split; intros Hn; [now injection Hn | now rewrite Hn]. Qed.

End SplitFacts.

(** ** The token inspector of the e-mail change screen *)

Section InspectorFacts.
Import JS React ConfirmEmailChangePage.
Context `{Platform}.

Lemma ltb_irreflexive (x : float) : PrimFloat.ltb x x = false.
Proof.
  rewrite ltb_spec. unfold SFltb.
  destruct (Prim2SF x) as [[] | [] | | [] m e]; simpl; try reflexivity;
    rewrite Z.compare_refl, Pos.compare_cont_refl; reflexivity.
Qed.

Lemma bind_normal {A B : Type} (a : A) (f : A -> Eff B) :
  bind (Normal a, []) f = f a.
Proof. unfold bind. destruct (f a). reflexivity. Qed.

Lemma bind_throw {A B : Type} (e : Exception) (t : list Effect) (f : A -> Eff B) :
  bind (Throw e, t) f = (Throw e, t).
Proof. reflexivity. Qed.

Lemma get_prop_field (payload : value) (k : string) :
  nullish payload = false -> get_prop payload k = Normal (field payload k).
Proof.
  unfold field. destruct payload; simpl; try discriminate; intros _; try reflexivity.
  destruct (own_prop props k); reflexivity.
Qed.

Lemma get_prop_nullish (payload : value) (k : string) :
  nullish payload = true -> get_prop payload k = Throw TypeError.
Proof. destruct payload; simpl; try discriminate; reflexivity. Qed.

Lemma has_structure_not_nullish (payload : value) :
  has_structure payload = true -> nullish payload = false.
Proof. destruct payload; try reflexivity; discriminate. Qed.

(** The condition of the structure check, evaluated left to right. *)
Lemma structure_condition (payload : value) :
  (lacks payload "type" ||| type_differs payload
     ||| lacks payload "email" ||| lacks payload "newEmail"
     ||| lacks payload "exp")%eff
  = if nullish payload then (Throw TypeError, [])
    else (Normal (negb (has_structure payload)), []).
Proof.
  destruct (nullish payload) eqn:Hnull.
  - unfold orelse, lacks, bind, lift.
    rewrite (get_prop_nullish payload "type" Hnull). reflexivity.
  - unfold orelse, lacks, type_differs, bind, lift, ret, has_structure.
    rewrite !(get_prop_field payload _ Hnull).
    destruct (truthy (field payload "type")),
             (strict_eq_str (field payload "type") "emailChange"),
             (truthy (field payload "email")),
             (truthy (field payload "newEmail")),
             (truthy (field payload "exp")); reflexivity.
Qed.

(** [validateToken_try] after a successful decoding. *)
Lemma validateToken_try_decoded (token : string) (clock : Z) (payload : value) :
  decodes token payload ->
  validateToken_try token clock =
    if nullish payload then (Throw TypeError, [])
    else if has_structure payload then
      match lt_number (field payload "exp") (of_int (clock / 1000)) with
      | Normal past =>
          (Normal (if past then token_expired payload else token_valid payload),
           [ClockRead])
      | Throw e => (Throw e, [ClockRead])
      end
    else (Normal invalid_structure, []).
Proof.
  intros (Hlen & encoded & decoded & Hidx & Hatob & Hparse).
  unfold validateToken_try. rewrite Hlen, Hidx.
  change (negb (3 =? 3)%nat) with false.
  change (default "undefined" (Some encoded)) with encoded.
  cbv iota. unfold ret at 1, lift. rewrite bind_normal, Hatob, bind_normal, Hparse.
  rewrite bind_normal, structure_condition.
  destruct (nullish payload) eqn:Hnull; [reflexivity |].
  rewrite bind_normal.
  destruct (has_structure payload); cbn [negb]; [| reflexivity].
  unfold emit. unfold bind at 1.
  rewrite (get_prop_field payload "exp" Hnull), bind_normal.
  destruct (lt_number (field payload "exp") (of_int (clock / 1000))) as [[|] | e];
    reflexivity.
Qed.

Lemma validateToken_try_format (token : string) (clock : Z) :
  List.length (split_dot token) <> 3%nat ->
  validateToken_try token clock = (Normal invalid_format, []).
Proof.
  intros Hlen. unfold validateToken_try.
  apply Nat.eqb_neq in Hlen. rewrite Hlen. reflexivity.
Qed.

Lemma validateToken_try_undecodable (token : string) (clock : Z) :
  undecodable token ->
  exists e, validateToken_try token clock = (Throw e, []).
Proof.
  intros (Hlen & encoded & Hidx & Hfail).
  unfold validateToken_try. rewrite Hlen, Hidx.
  change (negb (3 =? 3)%nat) with false.
  change (default "undefined" (Some encoded)) with encoded.
  cbv iota. unfold ret at 1, lift. rewrite bind_normal.
  destruct Hfail as [(e & Hatob) | (decoded & e & Hatob & Hparse)].
  - rewrite Hatob. exists e. reflexivity.
  - rewrite Hatob, bind_normal, Hparse. exists e. reflexivity.
Qed.

Lemma three_segments (l : list string) :
  List.length l = 3%nat -> exists encoded, index l 1 = Some encoded.
Proof.
  destruct l as [| a [| b l]]; try discriminate. intros _. exists b. reflexivity.
Qed.

(** A token of three segments decodes or it does not. *)
Lemma decodes_or_not (token : string) :
  List.length (split_dot token) = 3%nat ->
  (exists payload, decodes token payload) \/ undecodable token.
Proof.
  intros Hlen. destruct (three_segments _ Hlen) as (encoded & Hidx).
  destruct (atob encoded) as [decoded | e] eqn:Hatob.
  - destruct (JSON_parse decoded) as [payload | e] eqn:Hparse.
    + left. exists payload. split; [exact Hlen |]. exists encoded, decoded. auto.
    + right. split; [exact Hlen |]. exists encoded. split; [exact Hidx |].
      right. exists decoded, e. auto.
  - right. split; [exact Hlen |]. exists encoded. split; [exact Hidx |].
    left. exists e. exact Hatob.
Qed.

Lemma has_structure_truthy (payload : value) :
  has_structure payload = true -> truthy payload = true.
Proof. destruct payload; try reflexivity; discriminate. Qed.

Lemma decodes_not_empty (token : string) (payload : value) :
  decodes token payload -> token <> "".
Proof. intros (Hlen & _) ->. discriminate Hlen. Qed.

Lemma undecodable_not_empty (token : string) : undecodable token -> token <> "".
Proof. intros (Hlen & _) ->. discriminate Hlen. Qed.

(** [validateToken] after a successful decoding. *)
Lemma validateToken_decoded (token : string) (clock : Z) (payload : value) :
  decodes token payload ->
  validateToken token clock =
    if nullish payload then
      (Normal validation_failed, [ConsoleError "Token validation error:"])
    else if has_structure payload then
      match lt_number (field payload "exp") (of_int (clock / 1000)) with
      | Normal past =>
          (Normal (if past then token_expired payload else token_valid payload),
           [ClockRead])
      | Throw e =>
          (Normal validation_failed,
           [ClockRead; ConsoleError "Token validation error:"])
      end
    else (Normal invalid_structure, []).
Proof.
  intros Hdec. unfold validateToken.
  rewrite (validateToken_try_decoded token clock payload Hdec).
  destruct (nullish payload); [reflexivity |].
  destruct (has_structure payload); [| reflexivity].
  destruct (lt_number (field payload "exp") (of_int (clock / 1000))) as [[|] | e];
    reflexivity.
Qed.

(** The page opened on a token the inspector has a verdict for. *)
Lemma open_page_verdict (token : string) (clock : Z) (v : Validation)
    (t : list Effect) :
  token <> "" ->
  validateToken token clock = (Normal v, t) ->
  (v = invalid_format \/ v = invalid_structure \/ v = validation_failed ->
   ui (open_page (Some token) clock) = rejected_link) /\
  (forall payload, truthy payload = true -> v = token_expired payload ->
   ui (open_page (Some token) clock) = expired_link payload) /\
  (forall payload, v = token_valid payload ->
   ui (open_page (Some token) clock) = password_prompt payload).
Proof.
  intros Hne Hv. unfold open_page, checkTokenValidity.
  rewrite (missing_some token Hne).
  change (default "" (Some token)) with token.
  run_handler. rewrite Hv.
  split; [| split].
  - intros [-> | [-> | ->]]; reflexivity.
  - intros payload Htruthy ->. cbn [valid token_expired negb failure data].
    rewrite Htruthy. reflexivity.
  - intros payload ->. reflexivity.
Qed.

(** C2, as the code has it. For a token of three segments whose payload
    decodes and passes the structure check, the verdict is decided by the
    comparison [payload.exp < now] with [now = Math.floor(Date.now() / 1000)]:
    where it holds the inspector reports "Token expired" together with the
    decoded claims, and the page shows them on its expired screen; where it
    does not, the token is valid. The comparison is strict: a token whose
    [exp] is the number [now] is valid. *)
Theorem token_expiry_is_strict (token : string) (clock : Z) (payload : value) :
  decodes token payload ->
  has_structure payload = true ->
  (forall past,
     lt_number (field payload "exp") (of_int (clock / 1000)) = Normal past ->
     validateToken token clock =
       (Normal (if past then token_expired payload else token_valid payload),
        [ClockRead]) /\
     ui (open_page (Some token) clock) =
       if past then expired_link payload else password_prompt payload) /\
  (forall x, field payload "exp" = VNum x ->
     validateToken token clock =
       (Normal (if PrimFloat.ltb x (of_int (clock / 1000))
                then token_expired payload else token_valid payload),
        [ClockRead])) /\
  (field payload "exp" = VNum (of_int (clock / 1000)) ->
     validateToken token clock = (Normal (token_valid payload), [ClockRead]) /\
     ui (open_page (Some token) clock) = password_prompt payload).
Proof.
  intros Hdec Hstruct.
  pose proof (validateToken_decoded token clock payload Hdec) as Hv.
  rewrite (has_structure_not_nullish payload Hstruct), Hstruct in Hv.
  assert (Hpast : forall past,
    lt_number (field payload "exp") (of_int (clock / 1000)) = Normal past ->
    validateToken token clock =
      (Normal (if past then token_expired payload else token_valid payload),
       [ClockRead]) /\
    ui (open_page (Some token) clock) =
      if past then expired_link payload else password_prompt payload).
  { intros past Hlt. rewrite Hlt in Hv. split; [exact Hv |].
    destruct (open_page_verdict token clock _ _ (decodes_not_empty _ _ Hdec) Hv)
      as (_ & Hexpired & Hvalid).
    destruct past.
    - apply Hexpired; [apply has_structure_truthy; exact Hstruct | reflexivity].
    - apply Hvalid. reflexivity. }
  split; [exact Hpast |]. split.
  - intros x Hx. apply Hpast. rewrite Hx. reflexivity.
  - intros Hx.
    assert (Hlt : lt_number (field payload "exp") (of_int (clock / 1000)) = Normal false).
    { rewrite Hx. unfold lt_number, ToNumber. rewrite ltb_irreflexive. reflexivity. }
    exact (Hpast false Hlt).
Qed.

(** C8. A token that does not split into exactly three segments at its
    dots, or whose middle segment [atob] or [JSON.parse] rejects, is
    reported as a failure without claims ("Invalid token format" in the
    first case, "Token validation failed" in the second), and the page
    rejects the link as invalid without token data. *)
Theorem malformed_token_rejected (token : string) (clock : Z) :
  List.length (split_dot token) <> 3%nat \/ undecodable token ->
  (exists v t,
     validateToken token clock = (Normal v, t) /\
     (v = invalid_format \/ v = validation_failed) /\
     valid v = false /\ data v = None) /\
  (List.length (split_dot token) <> 3%nat ->
     fst (validateToken token clock) = Normal invalid_format) /\
  (undecodable token ->
     fst (validateToken token clock) = Normal validation_failed) /\
  (token <> "" -> ui (open_page (Some token) clock) = rejected_link).
Proof.
  intros Hbad.
  assert (Hformat : List.length (split_dot token) <> 3%nat ->
                    validateToken token clock = (Normal invalid_format, [])).
  { intros Hlen. unfold validateToken.
    rewrite (validateToken_try_format token clock Hlen). reflexivity. }
  assert (Hfailed : undecodable token ->
                    validateToken token clock =
                      (Normal validation_failed,
                       [ConsoleError "Token validation error:"])).
  { intros Hun. unfold validateToken.
    destruct (validateToken_try_undecodable token clock Hun) as (e & ->).
    reflexivity. }
  assert (Hv : exists v t,
    validateToken token clock = (Normal v, t) /\
    (v = invalid_format \/ v = validation_failed) /\
    valid v = false /\ data v = None).
  { destruct Hbad as [Hlen | Hun].
    - exists invalid_format, []. rewrite (Hformat Hlen). auto.
    - exists validation_failed, [ConsoleError "Token validation error:"].
      rewrite (Hfailed Hun). auto. }
  split; [exact Hv |]. split; [| split].
  - intros Hlen. rewrite (Hformat Hlen). reflexivity.
  - intros Hun. rewrite (Hfailed Hun). reflexivity.
  - intros Hne. destruct Hv as (v & t & Hv & Hkind & _).
    apply (open_page_verdict token clock v t Hne Hv). tauto.
Qed.

(** C9. On every string the inspector returns one of its five results and
    lets no exception escape, whatever the host functions throw on the
    way; what it does to the outside is reading the clock and writing to
    the console, never the network or the storage. *)
Theorem validateToken_total (token : string) (clock : Z) :
  exists v t,
    validateToken token clock = (Normal v, t) /\
    typed_verdict v /\
    Forall (fun e => is_io e = false) t.
Proof.
  destruct (Nat.eq_dec (List.length (split_dot token)) 3%nat) as [Hlen | Hlen].
  - destruct (decodes_or_not token Hlen) as [(payload & Hdec) | Hun].
    + rewrite (validateToken_decoded token clock payload Hdec).
      destruct (nullish payload).
      { eexists _, _. split; [reflexivity |]. split; [constructor |].
        repeat constructor. }
      destruct (has_structure payload).
      * destruct (lt_number (field payload "exp") (of_int (clock / 1000)))
          as [[|] | e];
          (eexists _, _; split; [reflexivity |]; split; [constructor |];
           repeat constructor).
      * eexists _, _. split; [reflexivity |]. split; [constructor |].
        repeat constructor.
    + unfold validateToken.
      destruct (validateToken_try_undecodable token clock Hun) as (e & ->).
      eexists _, _. split; [reflexivity |]. split; [constructor |].
      repeat constructor.
  - unfold validateToken. rewrite (validateToken_try_format token clock Hlen).
    eexists _, _. split; [reflexivity |]. split; [constructor |].
    repeat constructor.
Qed.

Lemma has_structure_spec (payload : value) :
  has_structure payload = true <->
  field payload "type" = VStr "emailChange" /\
  truthy (field payload "email") = true /\
  truthy (field payload "newEmail") = true /\
  truthy (field payload "exp") = true.
Proof.
  unfold has_structure. rewrite !andb_true_iff. split.
  - intros ((((_ & Htype) & Hemail) & Hnew) & Hexp). repeat split; try assumption.
    destruct (field payload "type"); try discriminate.
    simpl in Htype. apply String.eqb_eq in Htype. now subst.
  - intros (Htype & Hemail & Hnew & Hexp). rewrite Htype. auto.
Qed.

(** C10. The structure check comes before the expiry check and asks for
    more than the claims on display: a token whose payload decodes is
    rejected without claims unless its [type] is exactly ["emailChange"]
    and its [email], [newEmail] and [exp] are all truthy, so a missing
    [newEmail] and an [exp] of 0 are both failures of structure. The
    rejection is "Invalid token structure" (for the payload [null], whose
    properties cannot be read, "Token validation failed"); whatever the
    clock, it is never "Token expired" with claims, and the page rejects
    the link as invalid. *)
Theorem structure_check_precedes_expiry
    (token : string) (clock : Z) (payload : value) :
  decodes token payload ->
  (has_structure payload = true <->
     field payload "type" = VStr "emailChange" /\
     truthy (field payload "email") = true /\
     truthy (field payload "newEmail") = true /\
     truthy (field payload "exp") = true) /\
  (field payload "newEmail" = VUndefined -> has_structure payload = false) /\
  (field payload "exp" = VNum 0 -> has_structure payload = false) /\
  (has_structure payload = false ->
     fst (validateToken token clock) =
       Normal (if nullish payload then validation_failed else invalid_structure) /\
     (forall claims, fst (validateToken token clock) <> Normal (token_expired claims)) /\
     ui (open_page (Some token) clock) = rejected_link).
Proof.
  intros Hdec. split; [apply has_structure_spec |].
  split; [| split].
  - intros Hnew. unfold has_structure. rewrite Hnew. simpl.
    now rewrite andb_false_r.
  - intros Hexp. unfold has_structure. rewrite Hexp. simpl.
    now rewrite andb_false_r.
  - intros Hstruct.
    pose proof (validateToken_decoded token clock payload Hdec) as Hv.
    rewrite Hstruct in Hv.
    assert (Hfst : fst (validateToken token clock) =
              Normal (if nullish payload then validation_failed else invalid_structure))
      by (rewrite Hv; destruct (nullish payload); reflexivity).
    split; [exact Hfst |]. split.
    + intros claims Heq. rewrite Hfst in Heq.
      destruct (nullish payload); discriminate.
    + destruct (nullish payload);
        apply (open_page_verdict token clock _ _ (decodes_not_empty _ _ Hdec) Hv);
        tauto.
Qed.

End InspectorFacts.

(** ** The inspector on the reference host *)

Section InspectorOnHost.
Import JS React ConfirmEmailChangePage Examples.
#[local] Existing Instance Host.host.

Lemma token_1700000000_decodes : decodes token_1700000000 payload_1700000000.
Proof.
  split; [reflexivity |].
  eexists _, _. split; [reflexivity |]. split.
  - vm_compute. reflexivity.
  - vm_compute. reflexivity.
Qed.

Lemma token_without_newEmail_decodes :
  decodes token_without_newEmail payload_without_newEmail.
Proof.
  split; [reflexivity |].
  eexists _, _. split; [reflexivity |]. split.
  - vm_compute. reflexivity.
  - vm_compute. reflexivity.
Qed.

Lemma token_not_base64_undecodable : undecodable token_not_base64.
Proof.
  split; [reflexivity |].
  eexists. split; [reflexivity |]. left. eexists. reflexivity.
Qed.

Lemma token_expiry_witness :
  decodes token_1700000000 payload_1700000000 /\
  has_structure payload_1700000000 = true /\
  validateToken token_1700000000 1700000001000 =
    (Normal (token_expired payload_1700000000), [ClockRead]) /\
  ui (open_page (Some token_1700000000) 1700000001000) =
    expired_link payload_1700000000.
Proof.
  split; [exact token_1700000000_decodes |]. split; [reflexivity |].
  destruct (token_expiry_is_strict token_1700000000 1700000001000 payload_1700000000
              token_1700000000_decodes eq_refl) as (Hpast & _).
  exact (Hpast true eq_refl).
Defined.

(** C2, as the specification has it, fails at the boundary: a token whose
    [exp] is 1700000000, inspected while the clock reads 1700000000000 ms
    (so that [exp <= now] with [exp = now]), is found valid, and the page
    asks for the password. *)
Lemma token_expiring_now_is_valid :
  field payload_1700000000 "exp" = VNum (of_int (1700000000000 / 1000)) /\
  validateToken token_1700000000 1700000000000 =
    (Normal (token_valid payload_1700000000), [ClockRead]) /\
  valid (token_valid payload_1700000000) = true /\
  ui (open_page (Some token_1700000000) 1700000000000) =
    password_prompt payload_1700000000.
Proof.
  repeat split; vm_compute; reflexivity.
Qed.

Lemma malformed_token_witness :
  fst (validateToken token_two_segments 0) = Normal invalid_format /\
  fst (validateToken token_not_base64 0) = Normal validation_failed /\
  ui (open_page (Some token_not_base64) 0) = rejected_link.
Proof.
  split; [| split].
  - apply (malformed_token_rejected token_two_segments 0);
      [left |]; vm_compute; discriminate.
  - apply (malformed_token_rejected token_not_base64 0);
      [right |]; exact token_not_base64_undecodable.
  - apply (malformed_token_rejected token_not_base64 0);
      [right; exact token_not_base64_undecodable | discriminate].
Defined.

Lemma structure_check_witness :
  decodes token_without_newEmail payload_without_newEmail /\
  has_structure payload_without_newEmail = false /\
  lt_number (field payload_without_newEmail "exp") (of_int (1700000000000 / 1000))
    = Normal true /\
  fst (validateToken token_without_newEmail 1700000000000) = Normal invalid_structure /\
  ui (open_page (Some token_without_newEmail) 1700000000000) = rejected_link.
Proof.
  split; [exact token_without_newEmail_decodes |].
  split; [reflexivity |]. split; [reflexivity |].
  destruct (structure_check_precedes_expiry token_without_newEmail 1700000000000
              payload_without_newEmail token_without_newEmail_decodes)
    as (_ & _ & _ & Hreject).
  destruct (Hreject eq_refl) as (Hfst & _ & Hpage).
  exact (conj Hfst Hpage).
Defined.

(** The body of the [try] block does throw, on the payload [null]; the
    [catch] block turns that into a verdict. *)
Remark null_payload_is_caught :
  fst (validateToken_try token_null 0) = Throw TypeError /\
  fst (validateToken token_null 0) = Normal validation_failed.
Proof. split; vm_compute; reflexivity. Qed.

End InspectorOnHost.

(** * Further properties of the screens *)

(** ** The login step of the login form *)

Section LoginStepFacts.
Import JS React LoginForm Observed.

(** A login the backend accepts, followed by a challenge it issues, ends on
    the one-time-code form holding the issued id and the address typed in;
    the two calls are made in this order and nothing else is sent. *)
Theorem login_issues_challenge
    (s : State) (data : LoginFormValues) (net : Backend) (w : World State)
    (auth : AuthData) (result : OTPResponse) :
  net _ (authWithPassword (email data) (password data)) = Fulfilled auth ->
  net _ (requestOTP (email data)) = Fulfilled result ->
  let w' := run (onSubmit s data) net w in
  ui w' = setIsLoading false (setShowOtpForm true (setOtpId (Some (res_otpId result))
            (setUserEmail (email data) (setError None (ui w))))) /\
  events w' = (events w ++ [Request (authWithPassword (email data) (password data));
                            Request (requestOTP (email data))])%list /\
  login_button_disabled (pending_ui (onSubmit s data) w) = true.
Proof.
  intros Hauth Hotp. unfold onSubmit. run_handler. rewrite Hauth. run_handler.
  rewrite Hotp. run_handler. rewrite <- !app_assoc.
  repeat split.
Qed.

Lemma login_issues_challenge_witness :
  let data := {| email := "user@example.com"; password := "correctpw" |} in
  let w' := run (onSubmit initial data) (Examples.accepting "otp_1") (world initial ∅ 0) in
  otp_form_visible (ui w') = true /\ otpId (ui w') = Some "otp_1" /\
  userEmail (ui w') = "user@example.com".
Proof.
  destruct (login_issues_challenge initial
              {| email := "user@example.com"; password := "correctpw" |}
              (Examples.accepting "otp_1") (world initial ∅ 0)
              {| record_verified := true |} {| res_otpId := "otp_1" |} eq_refl eq_refl)
    as (Hui & _).
  cbv zeta. rewrite Hui. repeat split.
Defined.

(** A login the backend rejects asks for no one-time code: the password call
    is the only one, the login form stays with its button enabled again, and
    neither the address nor a challenge id is recorded. *)
Theorem rejected_login_requests_no_code
    (s : State) (data : LoginFormValues) (net : Backend) (w : World State)
    (err : Exception) :
  net _ (authWithPassword (email data) (password data)) = Rejected err ->
  let w' := run (onSubmit s data) net w in
  ui w' = setIsLoading false
            (setError (Some (match instanceof_ClientResponseError err with
                             | Some _ => "Invalid username or password"
                             | None => "An unexpected error occurred. Please try again."
                             end)) (ui w)) /\
  requests (events w') =
    (requests (events w) ++ [Request (authWithPassword (email data) (password data))])%list /\
  showOtpForm (ui w') = showOtpForm (ui w) /\
  otpId (ui w') = otpId (ui w) /\
  userEmail (ui w') = userEmail (ui w).
Proof.
  intros Hauth. unfold onSubmit. run_handler. rewrite Hauth.
  destruct (instanceof_ClientResponseError err); run_handler;
    unfold requests; rewrite List.filter_app; repeat split.
Qed.

Lemma rejected_login_witness :
  let data := {| email := "user@example.com"; password := "wrongpass" |} in
  let w' := run (onSubmit initial data) (Examples.rejecting Examples.wrong_code)
              (world initial ∅ 0) in
  error (ui w') = Some "Invalid username or password" /\
  otp_form_visible (ui w') = false.
Proof.
  destruct (rejected_login_requests_no_code initial
              {| email := "user@example.com"; password := "wrongpass" |}
              (Examples.rejecting Examples.wrong_code) (world initial ∅ 0)
              Examples.wrong_code eq_refl) as (Hui & _).
  cbv zeta. rewrite Hui. split; reflexivity.
Defined.

(** When the password is accepted but the request for a one-time code is
    rejected, the form stays on the login step and reports the failure with
    the message of a wrong password; the address has been recorded, a
    challenge id has not. *)
Theorem code_request_failure_reads_as_bad_password
    (s : State) (data : LoginFormValues) (net : Backend) (w : World State)
    (auth : AuthData) (e : ClientResponseError) :
  net _ (authWithPassword (email data) (password data)) = Fulfilled auth ->
  net _ (requestOTP (email data)) = Rejected (ClientResponse e) ->
  let w' := run (onSubmit s data) net w in
  error (ui w') = Some "Invalid username or password" /\
  showOtpForm (ui w') = showOtpForm (ui w) /\
  otpId (ui w') = otpId (ui w) /\
  userEmail (ui w') = email data /\
  login_button_disabled (ui w') = false.
Proof.
  intros Hauth Hotp. unfold onSubmit. run_handler. rewrite Hauth. run_handler.
  rewrite Hotp. run_handler. repeat split.
Qed.

Lemma code_request_failure_witness :
  let data := {| email := "user@example.com"; password := "correctpw" |} in
  error (ui (run (onSubmit initial data) MoreExamples.refusing_codes (world initial ∅ 0)))
  = Some "Invalid username or password".
Proof.
  destruct (code_request_failure_reads_as_bad_password initial
              {| email := "user@example.com"; password := "correctpw" |}
              MoreExamples.refusing_codes
              (world initial ∅ 0) {| record_verified := true |}
              {| cre_status := 429; cre_message := "Too Many Requests."; cre_data := [] |}
              eq_refl eq_refl) as (Herr & _).
  exact Herr.
Defined.

End LoginStepFacts.

(** ** The one-time-code step: abandoning, succeeding, being busy *)

Section CodeStepFacts.
Import JS React LoginForm Observed.

(** Going back to the login form discards the held challenge id without
    telling the backend and keeps the address; a code submitted afterwards
    is refused locally and never sent. *)
Theorem back_to_login_discards_challenge
    (s : State) (data : OtpFormValues) (net : Backend) (w : World State) :
  let w1 := run (handleBackToLogin s) net w in
  let w2 := run (onOtpSubmit (ui w1) data) net w1 in
  ui w1 = setError None (setOtpId None (setShowOtpForm false (ui w))) /\
  userEmail (ui w1) = userEmail (ui w) /\
  events w1 = events w /\
  events w2 = events w /\
  error (ui w2) = Some "Authentication error. Please try again.".
Proof. unfold handleBackToLogin, onOtpSubmit. run_handler. repeat split. Qed.

(** A code the backend accepts leads to the dashboard: one call with the
    held id, then one navigation; the buttons are enabled again and no error
    is shown. The held id is not discarded. *)
Theorem accepted_code_opens_dashboard
    (s : State) (id : string) (data : OtpFormValues) (net : Backend)
    (w : World State) (auth : AuthData) :
  ui w = s -> otpId s = Some id -> id <> "" ->
  net _ (authWithOTP id (otp data)) = Fulfilled auth ->
  let w' := run (onOtpSubmit s data) net w in
  events w' = (events w ++ [Request (authWithOTP id (otp data));
                            Sync (Navigate "/dashboard")])%list /\
  ui w' = setIsLoadingOtp false (setError None s) /\
  otpId (ui w') = Some id.
Proof.
  intros Hui Hid Hne Hnet. subst s.
  unfold onOtpSubmit. rewrite Hid, (missing_some id Hne).
  change (default "" (Some id)) with id.
  run_handler. rewrite Hnet. run_handler. rewrite <- !app_assoc.
  repeat split. exact Hid.
Qed.

Lemma accepted_code_witness :
  let s := Examples.challenge_issued in
  navigations (events (run (onOtpSubmit s {| otp := "123456" |})
                         (Examples.accepting "otp_2") (world s ∅ 0)))
  = ["/dashboard"].
Proof.
  destruct (accepted_code_opens_dashboard Examples.challenge_issued "otp_1"
              {| otp := "123456" |} (Examples.accepting "otp_2")
              (world Examples.challenge_issued ∅ 0) {| record_verified := true |}
              eq_refl eq_refl ltac:(discriminate) eq_refl) as (Hev & _).
  cbv zeta. rewrite Hev. reflexivity.
Defined.

(** While the call of a verification or of a resend is pending, the buttons
    of the one-time-code form are disabled and the previous error is
    cleared; the held id and the form are as before. *)
Theorem code_step_is_busy_while_pending
    (s : State) (id : string) (data : OtpFormValues) (w : World State) :
  ui w = s -> otpId s = Some id -> id <> "" -> userEmail s <> "" ->
  let verifying := pending_ui (onOtpSubmit s data) w in
  let resending := pending_ui (handleResendOtp s) w in
  otp_buttons_disabled verifying = true /\ error verifying = None /\
  otpId verifying = Some id /\ showOtpForm verifying = showOtpForm s /\
  otp_buttons_disabled resending = true /\ error resending = None /\
  otpId resending = Some id /\ showOtpForm resending = showOtpForm s.
Proof.
  intros Hui Hid Hne Hmail. subst s. apply String.eqb_neq in Hmail.
  unfold onOtpSubmit, handleResendOtp. rewrite Hid, (missing_some id Hne), Hmail.
  run_handler. repeat split; exact Hid.
Qed.

Lemma code_step_busy_witness :
  let s := Examples.challenge_issued in
  otp_buttons_disabled (pending_ui (onOtpSubmit s {| otp := "123456" |}) (world s ∅ 0))
  = true /\
  otp_buttons_disabled (pending_ui (handleResendOtp s) (world s ∅ 0)) = true.
Proof.
  destruct (code_step_is_busy_while_pending Examples.challenge_issued "otp_1"
              {| otp := "123456" |} (world Examples.challenge_issued ∅ 0)
              eq_refl eq_refl ltac:(discriminate) ltac:(discriminate))
    as (H1 & _ & _ & _ & H5 & _).
  exact (conj H1 H5).
Defined.

Lemma onOtpSubmit_settled
    (id : string) (data : OtpFormValues) (net : Backend) (w : World State) :
  otpId (ui w) = Some id -> id <> "" ->
  run (onOtpSubmit (ui w) data) net w =
    match net _ (authWithOTP id (otp data)) with
    | Fulfilled _ =>
        {| ui := setIsLoadingOtp false (setError None (ui w));
           localStorage := localStorage w; clock := clock w;
           events := (events w ++ [Request (authWithOTP id (otp data));
                                   Sync (Navigate "/dashboard")])%list |}
    | Rejected err =>
        {| ui := setIsLoadingOtp false
                   (setError (Some (match instanceof_ClientResponseError err with
                                    | Some e => cre_message e
                                    | None => "An unexpected error occurred. Please try again."
                                    end)) (ui w));
           localStorage := localStorage w; clock := clock w;
           events := (events w ++ [Request (authWithOTP id (otp data))])%list |}
    end.
Proof.
  intros Hid Hne. unfold onOtpSubmit. rewrite Hid, (missing_some id Hne).
  change (default "" (Some id)) with id. run_handler.
  destruct (net _ (authWithOTP id (otp data))) as [auth | err]; run_handler.
  - unfold with_ui, observe. cbn [ui events localStorage clock].
    rewrite <- !app_assoc. reflexivity.
  - destruct (instanceof_ClientResponseError err); reflexivity.
Qed.

(** The whole login: the password is accepted and a challenge issued, a
    wrong code is rejected, the right code is accepted. Exactly four calls
    are made, the two verifications with the issued id, and the only
    navigation is the one to the dashboard at the end. *)
Theorem login_with_one_retry
    (data : LoginFormValues) (bad good : OtpFormValues)
    (net1 net2 net3 : Backend) (w : World State)
    (auth1 auth3 : AuthData) (result : OTPResponse) (err : Exception) :
  res_otpId result <> "" ->
  net1 _ (authWithPassword (email data) (password data)) = Fulfilled auth1 ->
  net1 _ (requestOTP (email data)) = Fulfilled result ->
  net2 _ (authWithOTP (res_otpId result) (otp bad)) = Rejected err ->
  net3 _ (authWithOTP (res_otpId result) (otp good)) = Fulfilled auth3 ->
  let w1 := run (onSubmit (ui w) data) net1 w in
  let w2 := run (onOtpSubmit (ui w1) bad) net2 w1 in
  let w3 := run (onOtpSubmit (ui w2) good) net3 w2 in
  events w3 =
    (events w ++
     [Request (authWithPassword (email data) (password data));
      Request (requestOTP (email data));
      Request (authWithOTP (res_otpId result) (otp bad));
      Request (authWithOTP (res_otpId result) (otp good));
      Sync (Navigate "/dashboard")])%list /\
  otp_form_visible (ui w2) = true /\
  error (ui w2) <> None /\
  error (ui w3) = None.
Proof.
  intros Hne H1 H2 H3 H4 w1 w2 w3.
  assert (E1 : otpId (ui w1) = Some (res_otpId result) /\
               showOtpForm (ui w1) = true /\
               events w1 = (events w ++
                 [Request (authWithPassword (email data) (password data));
                  Request (requestOTP (email data))])%list).
  { subst w1. unfold onSubmit. run_handler. rewrite H1. run_handler.
    rewrite H2. run_handler. rewrite <- !app_assoc. repeat split. }
  destruct E1 as (Hid1 & Hform1 & Hev1).
  assert (E2 : w2 = _) by exact (onOtpSubmit_settled _ bad net2 w1 Hid1 Hne).
  rewrite H3 in E2.
  assert (Hid2 : otpId (ui w2) = Some (res_otpId result)) by (rewrite E2; exact Hid1).
  assert (E3 : w3 = _) by exact (onOtpSubmit_settled _ good net3 w2 Hid2 Hne).
  rewrite H4 in E3.
  rewrite E3. cbn [events ui]. rewrite E2. cbn [events ui]. rewrite Hev1.
  rewrite <- !app_assoc. repeat split.
  - exact Hform1.
  - discriminate.
Qed.

Lemma login_with_one_retry_witness :
  let data := {| email := "user@example.com"; password := "correctpw" |} in
  let w1 := run (onSubmit initial data) (Examples.accepting "otp_1") (world initial ∅ 0) in
  let w2 := run (onOtpSubmit (ui w1) {| otp := "000000" |})
              (Examples.rejecting Examples.wrong_code) w1 in
  let w3 := run (onOtpSubmit (ui w2) {| otp := "123456" |})
              (Examples.accepting "otp_1") w2 in
  navigations (events w3) = ["/dashboard"] /\ List.length (requests (events w3)) = 4%nat.
Proof.
  destruct (login_with_one_retry
              {| email := "user@example.com"; password := "correctpw" |}
              {| otp := "000000" |} {| otp := "123456" |}
              (Examples.accepting "otp_1") (Examples.rejecting Examples.wrong_code)
              (Examples.accepting "otp_1") (world initial ∅ 0)
              {| record_verified := true |} {| record_verified := true |}
              {| res_otpId := "otp_1" |} Examples.wrong_code
              ltac:(discriminate) eq_refl eq_refl eq_refl eq_refl) as (Hev & _).
  cbv zeta. change (ui (world initial ∅ 0)) with initial in Hev.
  rewrite Hev. split; reflexivity.
Defined.

End CodeStepFacts.

(** ** The truncated name on the "Continue as" button *)

Section TruncateNameFacts.
Import LoginFormView.

Lemma length_append (p q : string) :
  String.length (String.append p q) = (String.length p + String.length q)%nat.
Proof. induction p as [| c p IH]; simpl; [reflexivity | now rewrite IH]. Qed.

Lemma length_substring_0 (n : nat) : forall s,
  String.length (String.substring 0 n s) = Nat.min n (String.length s).
Proof.
  induction n as [| n IH]; intros [| c s]; simpl; try reflexivity.
  now rewrite IH.
Qed.

Lemma substring_0_append (p q : string) :
  String.substring 0 (String.length p) (String.append p q) = p.
Proof.
  induction p as [| c p IH]; simpl.
  - destruct q; reflexivity.
  - now rewrite IH.
Qed.

(** The truncated name has the length of the name when that is at most
    [maxLength] and [maxLength + 3] otherwise, so a name one or two
    characters too long comes out longer than it went in; its first
    [maxLength] characters are those of the name; truncating twice is
    truncating once. *)
Theorem truncateName_length_and_stability (name : string) (maxLength : nat) :
  String.length (truncateName name maxLength) =
    (if (String.length name <=? maxLength)%nat then String.length name
     else maxLength + 3)%nat /\
  String.substring 0 maxLength (truncateName name maxLength) =
    String.substring 0 maxLength name /\
  truncateName (truncateName name maxLength) maxLength = truncateName name maxLength.
Proof.
  unfold truncateName.
  destruct (String.length name <=? maxLength)%nat eqn:Hshort.
  - rewrite Hshort. auto.
  - apply Nat.leb_gt in Hshort.
    assert (Hlen : String.length (String.substring 0 maxLength name) = maxLength)
      by (rewrite length_substring_0; lia).
    assert (Hcut : String.substring 0 maxLength
                     (String.append (String.substring 0 maxLength name) "...")
                   = String.substring 0 maxLength name).
    { rewrite <- Hlen at 1. apply substring_0_append. }
    split; [| split].
    + rewrite length_append, Hlen. reflexivity.
    + exact Hcut.
    + rewrite length_append, Hlen.
      replace (maxLength + String.length "..." <=? maxLength)%nat with false
        by (symmetry; apply Nat.leb_gt; simpl; lia).
      now rewrite Hcut.
Qed.

End TruncateNameFacts.

(** ** Opening the e-mail change screen *)

Section OpenPageFacts.
Import JS React ConfirmEmailChangePage Observed.
Context `{Platform}.

Lemma ltb_nan (x y : float) : PrimFloat.is_nan x = true -> PrimFloat.ltb x y = false.
Proof.
  unfold PrimFloat.is_nan. rewrite FloatAxioms.eqb_spec, ltb_spec. unfold SFltb, SFeqb.
  destruct (Prim2SF x) as [[] | [] | | [] m e]; simpl;
    rewrite ?Z.compare_refl, ?Pos.compare_cont_refl; try discriminate; reflexivity.
Qed.

(** What the inspector does to the outside, for every token. *)
Lemma validateToken_effects (token : string) (clock : Z) :
  exists v t,
    validateToken token clock = (Normal v, t) /\
    Forall (fun e => e = ClockRead \/ e = ConsoleError "Token validation error:") t.
Proof.
  assert (Hshape : forall (r : Eff Validation),
    (exists v, r = (Normal v, []) \/ r = (Normal v, [ClockRead]) \/
               r = (Normal v, [ConsoleError "Token validation error:"]) \/
               r = (Normal v, [ClockRead; ConsoleError "Token validation error:"])) ->
    exists v t, r = (Normal v, t) /\
      Forall (fun e => e = ClockRead \/ e = ConsoleError "Token validation error:") t).
  { intros r (v & [-> | [-> | [-> | ->]]]); eexists _, _; (split; [reflexivity |]);
      repeat (apply List.Forall_cons; [auto |]); apply List.Forall_nil. }
  apply Hshape.
  destruct (Nat.eq_dec (List.length (split_dot token)) 3%nat) as [Hlen | Hlen].
  - destruct (decodes_or_not token Hlen) as [(payload & Hdec) | Hun].
    + rewrite (validateToken_decoded token clock payload Hdec).
      destruct (nullish payload); [eauto 6 |].
      destruct (has_structure payload); [| eauto 6].
      destruct (lt_number (field payload "exp") (of_int (clock / 1000))) as [[|] | e];
        eauto 6.
    + unfold validateToken.
      destruct (validateToken_try_undecodable token clock Hun) as (e & ->).
      eexists. right. right. left. reflexivity.
  - unfold validateToken. rewrite (validateToken_try_format token clock Hlen).
    eexists. left. reflexivity.
Qed.

Lemma sync_effects_are_local (t : list Effect) :
  Forall (fun e => e = ClockRead \/ e = ConsoleError "Token validation error:") t ->
  requests (map Sync t) = [] /\
  navigations (map Sync t) = [] /\
  storage_accesses (map Sync t) = [].
Proof.
  induction 1 as [| e t [-> | ->] _ (IH1 & IH2 & IH3)]; [auto | |];
    unfold requests, navigations, storage_accesses in *; simpl;
    rewrite ?IH1, ?IH2, ?IH3; auto.
Qed.

(** Opening the page is local, whatever the link carries: the inspection
    sends nothing to the backend, navigates nowhere and neither reads nor
    writes [localStorage]. *)
Theorem open_page_is_local (token : option string) (clock : Z) :
  requests (events (open_page token clock)) = [] /\
  navigations (events (open_page token clock)) = [] /\
  storage_accesses (events (open_page token clock)) = [] /\
  localStorage (open_page token clock) = ∅.
Proof.
  unfold open_page, checkTokenValidity.
  destruct (missing token); [run_handler; auto |].
  run_handler.
  destruct (validateToken_effects (default "" token) clock) as (v & t & -> & Ht).
  destruct (sync_effects_are_local t Ht) as (H1 & H2 & H3).
  destruct (negb (valid v));
    [destruct (failure v) as [reason |], (data v) as [payload |];
       [destruct (String.eqb reason "Token expired" && truthy payload) | ..] |];
    run_handler; cbn [app]; auto.
Qed.

(** A link without token, or with an empty one, is rejected without
    inspection: nothing is read, not even the clock; and submitting the
    password without a token sends nothing. *)
Theorem missing_token_is_rejected_unseen
    (token : option string) (clock : Z) (data : PasswordFormValues)
    (net : Backend) (w : World State) :
  missing token = true ->
  ui (open_page token clock) =
    {| status := error; errorType := Some invalid;
       message := "Email change token is missing. Please check your email link.";
       isSubmitting := false; tokenData := None; passwordError := None |} /\
  events (open_page token clock) = [] /\
  events (run (onSubmit token data) net w) = events w /\
  status (ui (run (onSubmit token data) net w)) = error.
Proof.
  intros Hmissing. unfold open_page, checkTokenValidity, onSubmit.
  rewrite Hmissing. run_handler. auto.
Qed.

(** Whatever the page keeps as token data after the inspection comes from
    the token and has passed the structure check: the addresses it displays
    are the truthy [email] and [newEmail] of a payload of type
    ["emailChange"]; and the password form is shown only with such data. *)
Theorem displayed_token_data_is_checked
    (token : string) (clock : Z) (payload : value) :
  tokenData (ui (open_page (Some token) clock)) = Some payload ->
  decodes token payload /\
  has_structure payload = true /\
  field payload "type" = VStr "emailChange" /\
  truthy (field payload "email") = true /\
  truthy (field payload "newEmail") = true.
Proof.
  intros Hdata.
  assert (Hgoal : decodes token payload /\ has_structure payload = true).
  { destruct (String.eqb_spec token "") as [-> | Hne];
      [discriminate Hdata |].
    destruct (Nat.eq_dec (List.length (split_dot token)) 3%nat) as [Hlen | Hlen].
    - destruct (decodes_or_not token Hlen) as [(payload' & Hdec) | Hun].
      + pose proof (validateToken_decoded token clock payload' Hdec) as Hv.
        destruct (nullish payload') eqn:Hnull.
        { destruct (open_page_verdict token clock _ _ Hne Hv) as (Hrej & _).
          rewrite Hrej in Hdata by auto. discriminate Hdata. }
        destruct (has_structure payload') eqn:Hstruct.
        * destruct (lt_number (field payload' "exp") (of_int (clock / 1000)))
            as [[|] | e].
          -- destruct (open_page_verdict token clock _ _ Hne Hv) as (_ & Hexp & _).
             rewrite (Hexp payload' (has_structure_truthy _ Hstruct) eq_refl) in Hdata.
             injection Hdata as <-. auto.
          -- destruct (open_page_verdict token clock _ _ Hne Hv) as (_ & _ & Hval).
             rewrite (Hval payload' eq_refl) in Hdata.
             injection Hdata as <-. auto.
          -- destruct (open_page_verdict token clock _ _ Hne Hv) as (Hrej & _).
             rewrite Hrej in Hdata by auto. discriminate Hdata.
        * destruct (open_page_verdict token clock _ _ Hne Hv) as (Hrej & _).
          rewrite Hrej in Hdata by auto. discriminate Hdata.
      + assert (Hv : validateToken token clock =
                       (Normal validation_failed, [ConsoleError "Token validation error:"])).
        { unfold validateToken.
          destruct (validateToken_try_undecodable token clock Hun) as (e & ->).
          reflexivity. }
        destruct (open_page_verdict token clock _ _ Hne Hv) as (Hrej & _).
        rewrite Hrej in Hdata by auto. discriminate Hdata.
    - assert (Hv : validateToken token clock = (Normal invalid_format, [])).
      { unfold validateToken. rewrite (validateToken_try_format token clock Hlen).
        reflexivity. }
      destruct (open_page_verdict token clock _ _ Hne Hv) as (Hrej & _).
      rewrite Hrej in Hdata by auto. discriminate Hdata. }
  destruct Hgoal as (Hdec & Hstruct). split; [exact Hdec |]. split; [exact Hstruct |].
  apply has_structure_spec in Hstruct. tauto.
Qed.

(** A comparison of [exp] with the clock that throws is caught like any
    other failure: the token is reported as failing validation, after the
    clock has been read, and the page rejects the link as invalid. *)
Theorem throwing_expiry_is_rejected
    (token : string) (clock : Z) (payload : value) (e : Exception) :
  decodes token payload ->
  has_structure payload = true ->
  lt_number (field payload "exp") (of_int (clock / 1000)) = Throw e ->
  validateToken token clock =
    (Normal validation_failed, [ClockRead; ConsoleError "Token validation error:"]) /\
  ui (open_page (Some token) clock) = rejected_link.
Proof.
  intros Hdec Hstruct Hlt.
  pose proof (validateToken_decoded token clock payload Hdec) as Hv.
  rewrite (has_structure_not_nullish payload Hstruct), Hstruct, Hlt in Hv.
  split; [exact Hv |].
  apply (open_page_verdict token clock _ _ (decodes_not_empty _ _ Hdec) Hv). auto.
Qed.

(** A truthy [exp] that converts to NaN, such as a string that is no
    number, never expires: the inspector finds the token valid at every
    time. *)
Theorem non_numeric_expiry_never_expires
    (token : string) (payload : value) (x : float) :
  decodes token payload ->
  has_structure payload = true ->
  ToNumber (field payload "exp") = Normal x ->
  PrimFloat.is_nan x = true ->
  forall clock,
    validateToken token clock = (Normal (token_valid payload), [ClockRead]) /\
    ui (open_page (Some token) clock) = password_prompt payload.
Proof.
  intros Hdec Hstruct Hnum Hnan clock.
  pose proof (validateToken_decoded token clock payload Hdec) as Hv.
  rewrite (has_structure_not_nullish payload Hstruct), Hstruct in Hv.
  unfold lt_number in Hv. rewrite Hnum, (ltb_nan x _ Hnan) in Hv.
  split; [exact Hv |].
  apply (open_page_verdict token clock _ _ (decodes_not_empty _ _ Hdec) Hv).
  reflexivity.
Qed.

End OpenPageFacts.

Section OpenPageOnHost.
Import JS React ConfirmEmailChangePage MoreExamples.
#[local] Existing Instance Host.host.

Lemma token_exp_never_decodes : decodes token_exp_never payload_exp_never.
Proof.
  split; [reflexivity |].
  eexists _, _. split; [reflexivity |]. split.
  - vm_compute. reflexivity.
  - vm_compute. reflexivity.
Qed.

Lemma token_exp_object_decodes : decodes token_exp_object payload_exp_object.
Proof.
  split; [reflexivity |].
  eexists _, _. split; [reflexivity |]. split.
  - vm_compute. reflexivity.
  - vm_compute. reflexivity.
Qed.

Lemma missing_token_witness :
  status (ui (open_page (Some "") 0)) = error /\
  events (open_page None 0) = [].
Proof.
  split.
  - destruct (missing_token_is_rejected_unseen (Some "") 0
                {| password_value := "pw" |} offline (world initial ∅ 0) eq_refl)
      as (Hui & _).
    rewrite Hui. reflexivity.
  - apply (missing_token_is_rejected_unseen None 0
             {| password_value := "pw" |} offline (world initial ∅ 0) eq_refl).
Defined.

Lemma displayed_token_data_witness :
  tokenData (ui (open_page (Some Examples.token_1700000000) 0))
    = Some Examples.payload_1700000000 /\
  has_structure Examples.payload_1700000000 = true.
Proof.
  assert (Hdata : tokenData (ui (open_page (Some Examples.token_1700000000) 0))
                  = Some Examples.payload_1700000000) by (vm_compute; reflexivity).
  split; [exact Hdata |].
  exact (proj1 (proj2 (displayed_token_data_is_checked Examples.token_1700000000 0
                         Examples.payload_1700000000 Hdata))).
Defined.

Lemma throwing_expiry_witness :
  lt_number (field payload_exp_object "exp") (of_int (1700000000000 / 1000))
    = Throw TypeError /\
  ui (open_page (Some token_exp_object) 1700000000000) = rejected_link.
Proof.
  split; [reflexivity |].
  exact (proj2 (throwing_expiry_is_rejected token_exp_object 1700000000000
                  payload_exp_object TypeError token_exp_object_decodes
                  eq_refl eq_refl)).
Defined.

Lemma non_numeric_expiry_witness :
  ToNumber (field payload_exp_never "exp") = Normal nan /\
  fst (validateToken token_exp_never 4102444800000) = Normal (token_valid payload_exp_never).
Proof.
  split; [reflexivity |].
  destruct (non_numeric_expiry_never_expires token_exp_never payload_exp_never nan
              token_exp_never_decodes eq_refl eq_refl eq_refl 4102444800000) as (Hv & _).
  rewrite Hv. reflexivity.
Defined.

End OpenPageOnHost.

(** ** Confirming the e-mail change *)

Section EmailChangeConfirmFacts.
Import JS React ConfirmEmailChangePage Observed.

(** A submission of the password makes exactly one call, with the token of
    the link and the password typed in, and never touches the token data,
    whatever the backend answers; when the backend accepts, the page shows
    the success message next to the addresses found at inspection. *)
Theorem email_change_submission
    (token : string) (data : PasswordFormValues) (net : Backend) (w : World State) :
  token <> "" ->
  let w' := run (onSubmit (Some token) data) net w in
  requests (events w') =
    (requests (events w) ++ [Request (confirmEmailChange token (password_value data))])%list /\
  tokenData (ui w') = tokenData (ui w) /\
  isSubmitting (ui w') = false /\
  (forall r, net _ (confirmEmailChange token (password_value data)) = Fulfilled r ->
     status (ui w') = success /\
     message (ui w') = "Your email has been successfully changed!" /\
     passwordError (ui w') = None).
Proof.
  intros Hne. unfold onSubmit. rewrite (missing_some token Hne).
  change (default "" (Some token)) with token. run_handler.
  destruct (net _ (confirmEmailChange token (password_value data))) as [r | err];
    run_handler.
  - unfold requests. rewrite List.filter_app. repeat split.
  - destruct (is_password_error err); run_handler;
      unfold requests; rewrite !List.filter_app; cbn [List.filter is_request];
      rewrite ?app_nil_r; repeat split; discriminate.
Qed.

Lemma email_change_submission_witness :
  let w' := run (onSubmit (Some "token") {| password_value := "correctpw" |})
              (Examples.accepting "otp_1")
              (world (password_prompt Examples.payload_1700000000) ∅ 0) in
  status (ui w') = success /\ tokenData (ui w') = Some Examples.payload_1700000000.
Proof.
  destruct (email_change_submission "token" {| password_value := "correctpw" |}
              (Examples.accepting "otp_1")
              (world (password_prompt Examples.payload_1700000000) ∅ 0)
              ltac:(discriminate)) as (_ & Hdata & _ & Hok).
  destruct (Hok tt eq_refl) as (Hstatus & _).
  exact (conj Hstatus Hdata).
Defined.

(** Only a response of status 400 can keep the password form: a rejection
    with any other status ends on the error screen, password error cleared,
    even if its message is about the password. *)
Theorem only_status_400_keeps_password_form
    (token : string) (data : PasswordFormValues) (net : Backend)
    (w : World State) (e : ClientResponseError) :
  token <> "" ->
  net _ (confirmEmailChange token (password_value data)) = Rejected (ClientResponse e) ->
  cre_status e <> 400 ->
  let s' := ui (run (onSubmit (Some token) data) net w) in
  status s' = error /\ errorType s' = Some other /\
  message s' = "Failed to change your email. Please try again or contact support." /\
  passwordError s' = None /\
  password_form_visible s' = false.
Proof.
  intros Hne Hnet Hstatus. unfold onSubmit. rewrite (missing_some token Hne).
  change (default "" (Some token)) with token. run_handler. rewrite Hnet.
  unfold is_password_error. apply Z.eqb_neq in Hstatus. rewrite Hstatus.
  run_handler. repeat split.
Qed.

Lemma only_status_400_witness :
  includes "Too many password attempts." "password" = true /\
  status (ui (run (onSubmit (Some "token") {| password_value := "pw" |})
                (Examples.rejecting MoreExamples.password_attempts_throttled)
                (world Examples.asking_password ∅ 0))) = error.
Proof.
  split; [reflexivity |].
  destruct (only_status_400_keeps_password_form "token" {| password_value := "pw" |}
              (Examples.rejecting MoreExamples.password_attempts_throttled)
              (world Examples.asking_password ∅ 0)
              {| cre_status := 429; cre_message := "Too many password attempts.";
                 cre_data := [] |} ltac:(discriminate) eq_refl ltac:(discriminate))
    as (Hstatus & _).
  exact Hstatus.
Defined.

End EmailChangeConfirmFacts.

(** ** The password reset screen without token, and after success *)

Section ResetPasswordMoreFacts.
Import JS React ResetPasswordPage Observed.

(** A reset link without token ends on the error message about the missing
    token, with the submit button disabled for good; a submission forced
    anyway sends nothing. *)
Theorem reset_without_token_sends_nothing
    (token : option string) (data : ResetPasswordFormValues) (net : Backend)
    (s : State) :
  missing token = true ->
  let s' := after (token_effect token) net s in
  status s' = error /\
  message s' = "Reset token is missing. Please check your email link." /\
  submit_disabled s' token = true /\
  (forall s'', steps token s' s'' -> status s'' = error) /\
  forall w, events (run (onSubmit token data) net w) = events w.
Proof.
  intros Hmissing. unfold after, token_effect, onSubmit. rewrite Hmissing.
  run_handler. repeat split.
  - unfold submit_disabled. cbn. now rewrite orb_true_r.
  - intros s'' Hsteps. eapply steps_keep_error; [exact Hsteps | reflexivity].
Qed.

Lemma reset_without_token_witness :
  status (after (token_effect None) offline initial) = error /\
  submit_disabled (after (token_effect (Some "")) offline initial) (Some "") = true.
Proof.
  destruct (reset_without_token_sends_nothing None
              {| password := "new-password"; passwordConfirm := "new-password" |}
              offline initial eq_refl) as (H1 & _).
  destruct (reset_without_token_sends_nothing (Some "")
              {| password := "new-password"; passwordConfirm := "new-password" |}
              offline initial eq_refl) as (_ & _ & H3 & _).
  exact (conj H1 H3).
Defined.

Lemma step_keeps_success (token : option string) (s s' : State) :
  missing token = false -> status s = success -> step token s s' -> status s' = success.
Proof.
  intros Htoken Hs Hstep. destruct Hstep as [s net | s net data Hvisible _].
  - unfold after, token_effect. rewrite Htoken. exact Hs.
  - unfold form_visible in Hvisible. rewrite Hs in Hvisible. discriminate.
Qed.

Lemma steps_keep_success (token : option string) (s s' : State) :
  missing token = false -> steps token s s' -> status s = success -> status s' = success.
Proof.
  intros Htoken. induction 1 as [s | s1 s2 s3 Hstep _ IH]; intros Hs; [exact Hs |].
  apply IH. exact (step_keeps_success token s1 s2 Htoken Hs Hstep).
Qed.

(** A reset the backend accepts makes one call with the token and both
    passwords, resets the form once and replaces it by the success panel;
    from then on the screen stays as it is. *)
Theorem accepted_reset_is_final
    (token : string) (data : ResetPasswordFormValues) (net : Backend)
    (w : World State) :
  token <> "" ->
  net _ (confirmPasswordReset token (password data) (passwordConfirm data))
    = Fulfilled tt ->
  let w' := run (onSubmit (Some token) data) net w in
  events w' =
    (events w ++ [Request (confirmPasswordReset token (password data) (passwordConfirm data));
                  FormReset])%list /\
  status (ui w') = success /\
  message (ui w') = "Your password has been reset successfully!" /\
  form_visible (ui w') = false /\
  alert_visible (ui w') = false /\
  forall s'', steps (Some token) (ui w') s'' -> status s'' = success.
Proof.
  intros Hne Hnet. unfold onSubmit. rewrite (missing_some token Hne).
  change (default "" (Some token)) with token. run_handler. rewrite Hnet.
  run_handler. rewrite <- !app_assoc. repeat split.
  intros s'' Hsteps.
  eapply steps_keep_success; [exact (missing_some token Hne) | exact Hsteps | reflexivity].
Qed.

Lemma accepted_reset_witness :
  let data := {| password := "new-password"; passwordConfirm := "new-password" |} in
  let w' := run (onSubmit (Some "reset-token") data) (Examples.accepting "otp_1")
              (world initial ∅ 0) in
  status (ui w') = success /\ form_visible (ui w') = false.
Proof.
  destruct (accepted_reset_is_final "reset-token"
              {| password := "new-password"; passwordConfirm := "new-password" |}
              (Examples.accepting "otp_1") (world initial ∅ 0)
              ltac:(discriminate) eq_refl) as (_ & H1 & _ & H2 & _).
  exact (conj H1 H2).
Defined.

End ResetPasswordMoreFacts.

(** ** The forgotten password screen *)

Section ForgotPasswordFacts.
Import JS React ForgotPasswordPage Observed.

(** A request for reset instructions that fails leaves the form in place
    with its button enabled again and the failure on display, and a second
    submission is sent like the first; one that succeeds resets the form and
    replaces it by the confirmation. Each submission makes exactly one
    call. *)
Theorem forgot_password_submission
    (data : ForgotPasswordFormValues) (net : Backend) (w : World State) :
  let w' := run (onSubmit data) net w in
  requests (events w') =
    (requests (events w) ++ [Request (requestPasswordReset (email data))])%list /\
  submit_disabled (pending_ui (onSubmit data) w) = true /\
  submit_disabled (ui w') = false /\
  match net _ (requestPasswordReset (email data)) with
  | Fulfilled _ =>
      form_visible (ui w') = false /\
      events w' = (events w ++ [Request (requestPasswordReset (email data)); FormReset])%list
  | Rejected err =>
      form_visible (ui w') = true /\
      status (ui w') =
        Some {| success := false;
                text := match instanceof_ClientResponseError err with
                        | Some e => cre_message e
                        | None => "An unexpected error occurred. Please try again."
                        end |} /\
      forall data',
        awaits (onSubmit data') w' (requestPasswordReset (email data'))
  end.
Proof.
  unfold onSubmit, awaits. run_handler.
  destruct (net _ (requestPasswordReset (email data))) as [r | err]; run_handler.
  - unfold requests. rewrite !List.filter_app, <- !app_assoc. repeat split.
  - destruct (instanceof_ClientResponseError err); run_handler;
      unfold requests; rewrite !List.filter_app; repeat split; eauto.
Qed.

End ForgotPasswordFacts.

(** ** The verification confirmation screen *)

Section ConfirmVerificationFacts.
Import JS React ConfirmVerificationPage Observed.

(** The confirmation of a verification link always leaves the loading
    state: without token it ends on the error about the missing token and
    makes no call; with a token it makes one call and ends on success or,
    whatever the reason of the rejection, on one fixed error message. *)
Theorem verification_link_outcome
    (token : option string) (net : Backend) (w : World State) :
  let w' := run (verifyEmail token) net w in
  status (ui w') <> loading /\
  if missing token then
    events w' = events w /\
    ui w' = {| status := error;
               message := "Verification token is missing. Please check your email link." |}
  else
    requests (events w') =
      (requests (events w) ++ [Request (confirmVerification (default "" token))])%list /\
    match net _ (confirmVerification (default "" token)) with
    | Fulfilled _ =>
        ui w' = {| status := success;
                   message := "Your email has been successfully verified! Please login to access your account." |}
    | Rejected _ =>
        ui w' = {| status := error;
                   message := "Failed to verify your email. The token may be invalid or expired." |}
    end.
Proof.
  unfold verifyEmail. destruct (missing token); run_handler.
  - repeat split. discriminate.
  - destruct (net _ (confirmVerification (default "" token))) as [r | err];
      run_handler; unfold requests; rewrite !List.filter_app;
      cbn [List.filter is_request]; rewrite ?app_nil_r; repeat split; discriminate.
Qed.

End ConfirmVerificationFacts.

(** ** The verification screen: opening, the automatic send, failures *)

Section VerifyEmailMoreFacts.
Import JS React VerifyEmailPage VerifyEmailVisit Observed.

Lemma mount_cases (storage : gmap string string) (now : Z) :
  localStorage (mount storage now) = storage /\
  requests (events (mount storage now)) = [] /\
  (ui (mount storage now) = setInitialEmailSent false initial \/
   ui (mount storage now) = setInitialEmailSent true initial \/
   exists sent,
     0 < RESEND_COOLDOWN - (now - sent) / 1000 /\
     ui (mount storage now) =
       setCountdown (fun _ => RESEND_COOLDOWN - (now - sent) / 1000)
         (setInitialEmailSent true initial)).
Proof.
  unfold mount, init_countdown. run_handler.
  destruct (missing (storage !! storage_key)); run_handler; [auto |].
  destruct (Text.parseInt (default "" (storage !! storage_key))) as [sent |];
    run_handler; [| auto].
  destruct (RESEND_COOLDOWN - (now - sent) / 1000 >? 0) eqn:Hpos; run_handler; [| auto].
  repeat split. right. right. exists sent. split; [| reflexivity].
  apply Z.gtb_lt in Hpos. lia.
Qed.

Lemma requests_app (es es' : list Event) :
  requests (es ++ es')%list = (requests es ++ requests es')%list.
Proof. apply List.filter_app. Qed.

Lemma auth_effects_sending
    (s0 : State) (user : option User) (isLoading : bool) (net : Backend)
    (w : World State) :
  let w' := run (auth_effects s0 user isLoading) net w in
  (negb (initialEmailSent s0) && logged_in user && negb isLoading = false ->
     localStorage w' = localStorage w /\
     requests (events w') = requests (events w) /\
     ui w' = ui w) /\
  (forall u, user = Some u -> isLoading = false -> initialEmailSent s0 = false ->
     requests (events w') =
       (requests (events w) ++ [Request (requestVerification (user_email u))])%list /\
     (net _ (requestVerification (user_email u)) = Fulfilled tt ->
        localStorage w' = <[storage_key := Text.toString (clock w)]> (localStorage w) /\
        ui w' = setInitialEmailSent true (ui w))).
Proof.
  unfold auth_effects, Routing.verify_email_redirect,
    sendInitialVerificationEmail, resendVerification.
  split.
  - intros Hguard. rewrite Hguard.
    destruct isLoading; [run_handler; auto |].
    destruct user as [u |]; [destruct (user_verified u) |];
      cbn [negb]; run_handler; rewrite ?requests_app, ?app_nil_r; auto.
  - intros u -> -> Hsent. rewrite Hsent. cbn [negb andb logged_in].
    destruct (user_verified u); cbn [negb]; run_handler;
      destruct (net unit (requestVerification (user_email u))) as [[] | e];
      run_handler; rewrite !requests_app;
      cbn [requests List.filter is_request app];
      rewrite ?app_nil_r; (split; [reflexivity |]); intros Hok;
      (discriminate Hok || auto).
Qed.

(** The first commit of the page starts a countdown that is never negative,
    whatever is stored and whoever is logged in. When the stored value is a
    recorded time, the countdown is positive exactly while less than 30
    whole seconds have passed since, and it is at most 30 unless the clock
    reads earlier than the record. While the auth context is loading or
    nobody is logged in, the commit writes nothing to [localStorage] and
    sends nothing; in no case does it send more than once. *)
Theorem opened_countdown_window
    (storage : gmap string string) (now later : Z) (user : option User)
    (isLoading : bool) (net : Backend) :
  let w := opened storage now later user isLoading net in
  0 <= countdown (ui w) /\
  (forall sent, storage !! storage_key = Some (Text.toString sent) ->
     (0 < countdown (ui w) <-> now - sent < 30000) /\
     (sent <= now -> countdown (ui w) <= RESEND_COOLDOWN)) /\
  (isLoading = true \/ user = None ->
     localStorage w = storage /\ requests (events w) = []) /\
  (length (requests (events w)) <= 1)%nat.
Proof.
  intros w. subst w.
  destruct (mount_cases storage now) as (Hst & Hreq & Hui).
  destruct (opened_throttle storage now later user isLoading net) as (Hcount & _).
  destruct (auth_effects_sending initial user isLoading net
              (at_time later (mount storage now))) as (Hquiet & Hsend).
  fold (opened storage now later user isLoading net) in Hquiet, Hsend.
  cbn [at_time localStorage events] in Hquiet, Hsend.
  rewrite Hst, Hreq in Hquiet. rewrite Hreq in Hsend.
  rewrite Hcount.
  split; [| split; [| split]].
  - destruct Hui as [-> | [-> | (sent & Hpos & ->)]]; cbn; lia.
  - intros sent Hget.
    destruct (mount_countdown storage sent now Hget) as (-> & _).
    unfold RESEND_COOLDOWN.
    assert (Hdiv : (now - sent) / 1000 < 30 <-> now - sent < 30000).
    { split; intros Hlt.
      - destruct (Z.lt_ge_cases (now - sent) 30000) as [Hok | Hge]; [exact Hok |].
        assert (30 <= (now - sent) / 1000) by (apply Z.div_le_lower_bound; lia). lia.
      - apply Z.div_lt_upper_bound; lia. }
    destruct (30 - (now - sent) / 1000 >? 0) eqn:Hpos;
      [apply Z.gtb_lt in Hpos | rewrite Z.gtb_ltb in Hpos; apply Z.ltb_ge in Hpos].
    + split; [split; intros; lia |].
      intros Hle. assert (0 <= (now - sent) / 1000) by (apply Z.div_pos; lia). lia.
    + split; [split; intros; lia | lia].
  - intros Hidle.
    destruct Hquiet as (Hls & Hrq & _); [| auto].
    destruct Hidle as [-> | ->]; [apply andb_false_r |].
    cbn [logged_in]. now rewrite andb_false_r.
  - destruct isLoading; [| destruct user as [u |]].
    + destruct Hquiet as (_ & -> & _); [apply andb_false_r | cbn; lia].
    + destruct (Hsend u eq_refl eq_refl eq_refl) as (-> & _). cbn. lia.
    + destruct Hquiet as (_ & -> & _); [reflexivity | cbn; lia].
Qed.

Lemma opened_countdown_window_witness :
  let storage : gmap string string :=
    <[storage_key := Text.toString 1700000000000]> ∅ in
  let u := MoreExamples.unverified_user in
  let net := Examples.accepting "otp_1" in
  0 < countdown (ui (opened storage 1700000029999 1700000030500 (Some u) false net)) /\
  ~ 0 < countdown (ui (opened storage 1700000030000 1700000030500 (Some u) false net)) /\
  localStorage (opened storage 1700000029999 1700000030500 None false net) = storage.
Proof.
  intros storage u net.
  destruct (opened_countdown_window storage 1700000029999 1700000030500 (Some u) false net)
    as (_ & Hbefore & _).
  destruct (opened_countdown_window storage 1700000030000 1700000030500 (Some u) false net)
    as (_ & Hafter & _).
  destruct (opened_countdown_window storage 1700000029999 1700000030500 None false net)
    as (_ & _ & Hidle & _).
  destruct (Hbefore 1700000000000 (lookup_insert_eq _ _ _)) as (Hb & _).
  destruct (Hafter 1700000000000 (lookup_insert_eq _ _ _)) as (Ha & _).
  split; [apply Hb; lia |]. split.
  - intros Hpos. apply Ha in Hpos. lia.
  - exact (proj1 (Hidle (or_intror eq_refl))).
Defined.

Lemma mount_over_record
    (storage : gmap string string) (now : Z) (v : string) :
  storage !! storage_key = Some v -> v <> "" ->
  initialEmailSent (ui (mount storage now)) = true /\
  (Text.parseInt v = None -> countdown (ui (mount storage now)) = 0).
Proof.
  intros Hget Hne.
  unfold mount, init_countdown. run_handler. rewrite Hget.
  rewrite (missing_some v Hne). change (default "" (Some v)) with v. run_handler.
  destruct (Text.parseInt v) as [sent |]; run_handler.
  - destruct (RESEND_COOLDOWN - (now - sent) / 1000 >? 0); run_handler;
      split; [reflexivity | discriminate | reflexivity | discriminate].
  - auto.
Qed.

(** What a recorded send does to the automatic one depends on how the page
    is reached. On a full reload, where the auth context is still loading
    at the first commit, any non-empty stored value keeps the page from
    sending, also once the user has arrived, and the record stays as it is.
    On a page opened with the user already loaded the first commit sends all
    the same, because its effect still sees [initialEmailSent] as rendered;
    when the send succeeds, the record is replaced by the time of the new
    send, while the countdown is the one derived from the old record. A
    stored value that is no number starts no countdown either way. *)
Theorem automatic_send_over_a_record
    (storage : gmap string string) (now later : Z) (v : string)
    (u : User) (net : Backend) :
  storage !! storage_key = Some v -> v <> "" ->
  net _ (requestVerification (user_email u)) = Fulfilled tt ->
  let reload := reloaded storage now later (Some u) net in
  let visit := opened storage now later (Some u) false net in
  (requests (events reload) = [] /\
   localStorage reload = storage /\
   initialEmailSent (ui reload) = true) /\
  (requests (events visit) = [Request (requestVerification (user_email u))] /\
   localStorage visit = <[storage_key := Text.toString later]> storage /\
   initialEmailSent (ui visit) = true /\
   countdown (ui visit) = countdown (ui (mount storage now))) /\
  (Text.parseInt v = None ->
   countdown (ui reload) = 0 /\ countdown (ui visit) = 0).
Proof.
  intros Hget Hne Hnet reload visit.
  destruct (mount_cases storage now) as (Hst & Hreq & _).
  destruct (mount_over_record storage now v Hget Hne) as (Hsent & Hnan).
  destruct (opened_throttle storage now later (Some u) false net) as (Hcv & _).
  destruct (reloaded_throttle storage now later (Some u) net) as (Hcr & _).
  fold visit in Hcv. fold reload in Hcr.
  (* the first commit of the reload *)
  destruct (auth_effects_sending initial None true net
              (at_time now (mount storage now))) as (Hfirst & _).
  fold (opened storage now now None true net) in Hfirst.
  destruct Hfirst as (Hls0 & Hrq0 & Hui0); [reflexivity |].
  cbn [at_time localStorage events ui] in Hls0, Hrq0, Hui0.
  rewrite Hst in Hls0. rewrite Hreq in Hrq0.
  (* its second commit *)
  destruct (auth_effects_sending (ui (opened storage now now None true net))
              (Some u) false net
              (at_time later (opened storage now now None true net)))
    as (Hsecond & _).
  fold (reloaded storage now later (Some u) net) in Hsecond. fold reload in Hsecond.
  destruct Hsecond as (Hls1 & Hrq1 & Hui1); [rewrite Hui0, Hsent; reflexivity |].
  cbn [at_time localStorage events ui] in Hls1, Hrq1, Hui1.
  rewrite Hls0 in Hls1. rewrite Hrq0 in Hrq1. rewrite Hui0 in Hui1.
  (* the first commit with the user loaded *)
  destruct (auth_effects_sending initial (Some u) false net
              (at_time later (mount storage now))) as (_ & Hthird).
  fold (opened storage now later (Some u) false net) in Hthird. fold visit in Hthird.
  destruct (Hthird u eq_refl eq_refl eq_refl) as (Hrq2 & Hok).
  destruct (Hok Hnet) as (Hls2 & Hui2).
  cbn [at_time localStorage events ui clock] in Hrq2, Hls2, Hui2.
  rewrite Hreq in Hrq2. rewrite Hst in Hls2.
  split; [| split].
  - rewrite Hui1. auto.
  - rewrite Hui2. auto.
  - intros Hv. rewrite Hcr, Hcv. auto.
Qed.

Lemma automatic_send_over_a_record_witness :
  let storage : gmap string string := <[storage_key := "1700000000000"]> ∅ in
  let u := MoreExamples.unverified_user in
  let net := Examples.accepting "otp_1" in
  requests (events (reloaded storage 1700000005000 1700000005400 (Some u) net)) = [] /\
  localStorage (opened storage 1700000005000 1700000005400 (Some u) false net)
    !! storage_key = Some "1700000005400" /\
  countdown (ui (opened storage 1700000005000 1700000005400 (Some u) false net)) = 25.
Proof.
  intros storage u net.
  destruct (automatic_send_over_a_record storage 1700000005000 1700000005400
              "1700000000000" u net (lookup_insert_eq _ _ _) ltac:(discriminate) eq_refl)
    as ((Hquiet & _) & (_ & Hls & _ & Hcount) & _).
  split; [exact Hquiet |]. split.
  - rewrite Hls. rewrite lookup_insert_eq. vm_compute. reflexivity.
  - rewrite Hcount. vm_compute. reflexivity.
Defined.

(** On a first visit (nothing recorded) with a user loaded, the automatic
    send makes one call; when it succeeds the time is recorded and the
    effect, run again on the new state, sends nothing. *)
Theorem automatic_send_happens_once
    (u : User) (net : Backend) (storage : gmap string string) (now : Z) :
  storage !! storage_key = None ->
  net _ (requestVerification (user_email u)) = Fulfilled tt ->
  let w0 := mount storage now in
  let w1 := run (sendInitialVerificationEmail (ui w0) (Some u) false) net w0 in
  requests (events w1) = [Request (requestVerification (user_email u))] /\
  localStorage w1 !! storage_key = Some (Text.toString now) /\
  initialEmailSent (ui w1) = true /\
  run (sendInitialVerificationEmail (ui w1) (Some u) false) net w1 = w1.
Proof.
  intros Hget Hnet w0 w1.
  assert (E0 : w0 = {| ui := initial; localStorage := storage; clock := now;
                      events := [Sync (StorageGet storage_key)] |}).
  { subst w0. unfold mount, init_countdown. run_handler. rewrite Hget. reflexivity. }
  assert (E1 : w1 = {| ui := setInitialEmailSent true initial;
                      localStorage := <[storage_key := Text.toString now]> storage;
                      clock := now;
                      events := [Sync (StorageGet storage_key);
                                 Request (requestVerification (user_email u));
                                 Sync ClockRead;
                                 Sync (StorageSet storage_key (Text.toString now))] |}).
  { subst w1. rewrite E0. unfold sendInitialVerificationEmail, resendVerification.
    cbn [ui initialEmailSent initial negb andb logged_in].
    run_handler. rewrite Hnet. run_handler. reflexivity. }
  rewrite E1. cbn [ui localStorage events].
  split; [reflexivity |]. split; [apply lookup_insert_eq |]. split; reflexivity.
Qed.

Lemma automatic_send_witness :
  let w0 := mount ∅ 1700000000000 in
  let w1 := run (sendInitialVerificationEmail (ui w0) (Some MoreExamples.unverified_user)
                   false) (Examples.accepting "otp_1") w0 in
  initialEmailSent (ui w1) = true /\
  localStorage w1 !! storage_key = Some (Text.toString 1700000000000).
Proof.
  destruct (automatic_send_happens_once MoreExamples.unverified_user
              (Examples.accepting "otp_1") ∅ 1700000000000 (lookup_empty _) eq_refl)
    as (_ & Hstore & Hsent & _).
  exact (conj Hsent Hstore).
Defined.

(** A send that fails records nothing. After a rejected resend the stored
    time and the countdown are as before, the failure is on display and the
    button is no longer busy; without a logged-in user the resend fails
    without any call. After a rejected automatic send nothing is stored and
    the page still counts the first e-mail as not sent. *)
Theorem failed_send_records_nothing
    (s : State) (user : option User) (net : Backend) (w : World State) :
  ui w = s ->
  (forall u, user = Some u ->
     exists err, net _ (requestVerification (user_email u)) = Rejected err) ->
  let w1 := run (handleResendVerification s user) net w in
  let w2 := run (sendInitialVerificationEmail s user false) net w in
  localStorage w1 = localStorage w /\
  countdown (ui w1) = countdown s /\
  isResending (ui w1) = false /\
  resendStatus (ui w1) =
    Some {| success := false;
            text := "Failed to send verification email. Please try again later." |} /\
  (user = None -> events w1 = events w) /\
  localStorage w2 = localStorage w /\
  ui w2 = s.
Proof.
  intros Hui Hnet. subst s.
  unfold handleResendVerification, sendInitialVerificationEmail, resendVerification.
  destruct user as [u |].
  - destruct (Hnet u eq_refl) as (err & Herr).
    run_handler. rewrite Herr. run_handler.
    repeat split; try discriminate;
      destruct (negb (initialEmailSent (ui w)) && logged_in (Some u) && negb false);
      run_handler; rewrite ?Herr; reflexivity.
  - run_handler. repeat split; try reflexivity;
      destruct (negb (initialEmailSent (ui w))); reflexivity.
Qed.

Lemma failed_send_witness :
  let w := world initial ∅ 1700000000000 in
  localStorage (run (handleResendVerification initial (Some MoreExamples.unverified_user))
                  (Examples.rejecting Examples.too_many_requests) w) = ∅ /\
  events (run (handleResendVerification initial None) (Examples.accepting "otp_1") w) = [].
Proof.
  split.
  - destruct (failed_send_records_nothing initial (Some MoreExamples.unverified_user)
                (Examples.rejecting Examples.too_many_requests)
                (world initial ∅ 1700000000000) eq_refl) as (Hst & _).
    + intros u _. exists Examples.too_many_requests. reflexivity.
    + exact Hst.
  - destruct (failed_send_records_nothing initial None (Examples.accepting "otp_1")
                (world initial ∅ 1700000000000) eq_refl) as (_ & _ & _ & _ & Hev & _).
    + intros u Hu. discriminate Hu.
    + exact (Hev eq_refl).
Defined.

(** The timer only ever changes the countdown: after any number of firings
    a countdown that was positive has gone down by that number, stopping at
    0, one that was not is untouched, and the throttle lets a send through
    exactly when the firings have used the countdown up. *)
Theorem countdown_runs_down (s : State) (n : nat) :
  Nat.iter n tick s =
    setCountdown (fun c => if c <=? 0 then c else Z.max 0 (c - Z.of_nat n)) s /\
  (canSend (Nat.iter n tick s) = true <-> countdown s <= Z.of_nat n).
Proof.
  assert (Hiter : Nat.iter n tick s =
    setCountdown (fun c => if c <=? 0 then c else Z.max 0 (c - Z.of_nat n)) s).
  { induction n as [| n IH].
    - destruct s as [a b c d cd e]. unfold setCountdown. cbn.
      f_equal. destruct (cd <=? 0) eqn:H0; [reflexivity |]. apply Z.leb_gt in H0. lia.
    - rewrite Nat.iter_succ, IH. destruct s as [a b c d cd e].
      unfold tick, setCountdown. cbn [countdown isResending isRefreshing resendStatus
                                      refreshStatus initialEmailSent].
      destruct (cd <=? 0) eqn:H0.
      + rewrite H0. reflexivity.
      + apply Z.leb_gt in H0.
        destruct (Z.max 0 (cd - Z.of_nat n) <=? 0) eqn:H1.
        * apply Z.leb_le in H1. f_equal. lia.
        * apply Z.leb_gt in H1. f_equal.
          destruct (Z.max 0 (cd - Z.of_nat n) <=? 1) eqn:H2;
            [apply Z.leb_le in H2 | apply Z.leb_gt in H2]; lia. }
  split; [exact Hiter |].
  rewrite Hiter. unfold canSend, setCountdown. cbn [countdown].
  rewrite negb_true_iff.
  destruct (countdown s <=? 0) eqn:H0; [apply Z.leb_le in H0 | apply Z.leb_gt in H0].
  - split; intros; [lia |]. rewrite Z.gtb_ltb. apply Z.ltb_ge. exact H0.
  - rewrite Z.gtb_ltb, Z.ltb_ge. lia.
Qed.

End VerifyEmailMoreFacts.

(** ** The guards of the verification page and of the dashboard *)

Section RoutingFacts.
Import JS React Routing.


End RoutingFacts.

(** ** The auth store kept in [localStorage] *)

Section AuthPersistenceFacts.
Import JS AuthPersistence.
Context `{Platform}.
Variable AuthStore : Type.
Variable save : value -> value -> AuthStore -> AuthStore.
Variable isValid : AuthStore -> bool.
Variable token : AuthStore -> value.
Variable model : AuthStore -> value.
Variable stringify : value -> value -> string.

(** A stored value that cannot be used is removed and leaves the store as
    it was: one that is not JSON, and the JSON [null]. The other keys of
    [localStorage] are untouched, and restoring again finds nothing. *)
Theorem unusable_auth_data_is_removed
    (storage : gmap string string) (store : AuthStore) (v : string) :
  storage !! auth_key = Some v -> v <> "" ->
  (exists e, JSON_parse v = Throw e) \/ JSON_parse v = Normal VNull ->
  restore AuthStore save storage store =
    (delete auth_key storage, store, [ConsoleError "Failed to restore auth state:"]) /\
  (forall k, k <> auth_key -> delete auth_key storage !! k = storage !! k) /\
  restore AuthStore save (delete auth_key storage) store =
    (delete auth_key storage, store, []).
Proof.
  intros Hget Hne Hbad.
  assert (Htry : exists e, restore_try AuthStore save v store = Throw e).
  { unfold restore_try. destruct Hbad as [(e & ->) | ->]; eexists; reflexivity. }
  destruct Htry as (e & Htry).
  apply String.eqb_neq in Hne.
  split; [| split].
  - unfold restore. rewrite Hget, Hne, Htry. reflexivity.
  - intros k Hk. apply lookup_delete_ne. congruence.
  - unfold restore. rewrite lookup_delete_eq. reflexivity.
Qed.

(** A store that is not valid when it changes (after a logout) has its key
    deleted, so a later page load restores nothing; a valid store is written
    under the key, and the other keys are untouched either way. *)
Theorem invalid_store_is_not_persisted
    (storage : gmap string string) (store fresh : AuthStore) :
  (forall k, k <> auth_key ->
     onChange AuthStore isValid token model stringify storage store !! k = storage !! k) /\
  if isValid store then
    onChange AuthStore isValid token model stringify storage store !! auth_key
      = Some (stringify (token store) (model store))
  else
    onChange AuthStore isValid token model stringify storage store !! auth_key = None /\
    restore AuthStore save
      (onChange AuthStore isValid token model stringify storage store) fresh
    = (onChange AuthStore isValid token model stringify storage store, fresh, []).
Proof.
  unfold onChange. destruct (isValid store).
  - split; [intros k Hk; apply lookup_insert_ne; congruence | apply lookup_insert_eq].
  - split; [intros k Hk; apply lookup_delete_ne; congruence |].
    split; [apply lookup_delete_eq |].
    unfold restore. rewrite lookup_delete_eq. reflexivity.
Qed.

End AuthPersistenceFacts.

Section AuthPersistenceOnHost.
Import JS AuthPersistence.
#[local] Existing Instance Host.host.

Lemma unusable_auth_data_witness :
  let storage : gmap string string := <[auth_key := "not json"]> ∅ in
  fst (fst (restore (value * value) (fun t m _ => (t, m)) storage (VStr "", VNull)))
    !! auth_key = None.
Proof.
  intros storage.
  destruct (unusable_auth_data_is_removed (value * value) (fun t m _ => (t, m))
              storage (VStr "", VNull) "not json" (lookup_insert_eq _ _ _)
              ltac:(discriminate)) as (Hrestore & _).
  - left. eexists. vm_compute. reflexivity.
  - rewrite Hrestore. apply lookup_delete_eq.
Defined.

End AuthPersistenceOnHost.
